(** * Verification of the wiki-markup transcoder of maid_in_abyss

    Source: [maid_in_abyss/exts/mihoyo/wiki/interface/display.py]
    ([urlify], [wiki_link], [discord_link], [TAG_MAPPING],
    [TEMPLATE_MAPPING], [parse_wiki_str] with its local helper [replace]).

    Python values are embedded as follows.
    - [str] is a sequence of Unicode code points: [list N].  Offsets of the
      markup spans index code points, exactly as Python's [str] indexing.
    - [int] is [Z]; list slicing follows CPython's index normalisation
      (negative indices count from the end, out-of-range indices are clamped).
    - [Optional[str]] is [option (list N)]; [dict] is stdpp's [gmap].
    - Exceptions are values of an error monad [result].
    - The constant [api.WIKI_BASE] and the third-party parser
      [wikitextparser.parse] are not part of the file; they are parameters.
      What the parser reports ([span], [_match.span(..)], [attrs], [name],
      [target], nested [wikilinks] / [templates]) is a record read by the
      passes. *)

From Stdlib Require Import ZArith NArith String Ascii List Lia.
From stdpp Require Import base option list sorting gmap.

Local Open Scope Z_scope.

(** ** Python strings *)

Abbreviation pystr := (list N).

(** An ASCII literal as a Python string. *)
Definition str (s : string) : pystr := N_of_ascii <$> list_ascii_of_string s.

(** ** Exceptions *)

Inductive exn : Type :=
  | KeyError
  | AssertionError
  | UnicodeEncodeError.

Inductive result (A : Type) : Type :=
  | Ok (a : A)
  | Raise (e : exn).
Arguments Ok {A} a.
Arguments Raise {A} e.

#[global] Instance result_ret : MRet result := fun A a => Ok a.
#[global] Instance result_bind : MBind result := fun A B f m =>
  match m with
  | Ok a => f a
  | Raise e => Raise e
  end.

(** A [for x in xs: body] loop over a mutable state, stopping at the first
    exception. *)
Fixpoint for_each {X S : Type} (body : S → X → result S) (xs : list X) (st : S)
  : result S :=
  match xs with
  | [] => Ok st
  | x :: xs' => st' ← body st x; for_each body xs' st'
  end.

(** ** [urllib.parse.quote] with its default arguments *)

Module Urllib.

(** [str.encode("utf-8", "strict")] of one code point; a surrogate cannot be
    encoded. *)
Definition utf8_encode_char (c : N) : option (list N) :=
  (if c <? 0x80 then Some [c]
   else if c <? 0x800 then
     Some [N.lor 0xC0 (N.shiftr c 6); N.lor 0x80 (N.land c 0x3F)]
   else if c <? 0x10000 then
     if (0xD800 <=? c) && (c <=? 0xDFFF) then None
     else Some [N.lor 0xE0 (N.shiftr c 12);
                N.lor 0x80 (N.land (N.shiftr c 6) 0x3F);
                N.lor 0x80 (N.land c 0x3F)]
   else
     Some [N.lor 0xF0 (N.shiftr c 18);
           N.lor 0x80 (N.land (N.shiftr c 12) 0x3F);
           N.lor 0x80 (N.land (N.shiftr c 6) 0x3F);
           N.lor 0x80 (N.land c 0x3F)])%N.

Fixpoint utf8_encode (s : pystr) : option (list N) :=
  match s with
  | [] => Some []
  | c :: s' =>
      match utf8_encode_char c, utf8_encode s' with
      | Some bs, Some rest => Some (bs ++ rest)
      | _, _ => None
      end
  end.

(** [_ALWAYS_SAFE] together with the default [safe='/']. *)
Definition is_safe (b : N) : bool :=
  (((0x41 <=? b) && (b <=? 0x5A))        (* A-Z *)
   || ((0x61 <=? b) && (b <=? 0x7A))     (* a-z *)
   || ((0x30 <=? b) && (b <=? 0x39))     (* 0-9 *)
   || (b =? 0x5F) || (b =? 0x2E) || (b =? 0x2D) || (b =? 0x7E)  (* _.-~ *)
   || (b =? 0x2F))%N.                    (* / *)

Definition hex_digit (d : N) : N :=
  (if d <? 10 then 0x30 + d else 0x41 + (d - 10))%N.

(** ['%{:02X}'.format(b)] *)
Definition percent (b : N) : pystr :=
  [0x25; hex_digit (b / 16); hex_digit (b mod 16)]%N.

Definition quote_byte (b : N) : pystr :=
  if is_safe b then [b] else percent b.

Definition quote (s : pystr) : result pystr :=
  match utf8_encode s with
  | Some bs => Ok (concat (quote_byte <$> bs))
  | None => Raise UnicodeEncodeError
  end.

End Urllib.

(** [s.replace(" ", "_")] *)
Definition replace_space (s : pystr) : pystr :=
  (fun c => if (c =? 0x20)%N then 0x5F%N else c) <$> s.

(** ** The overlay buffer

    [list_str] is a [list[Optional[str]]]; the passes never look inside a
    cell, so the helper and the passes are written over an arbitrary cell
    type.  The program uses cells of type [str]. *)

(** CPython's normalisation of one slice bound against [len]. *)
Definition slice_index (len i : Z) : Z :=
  if i <? 0 then Z.max 0 (i + len) else Z.min i len.

(** [lst[begin:end] = [repl] + [None] * (end - begin - 1)] *)
Definition replace {A : Type} (lst : list (option A)) (begin end_ : Z)
    (repl : option A) : list (option A) :=
  let len := Z.of_nat (length lst) in
  let lo := slice_index len begin in
  let hi := Z.max lo (slice_index len end_) in
  take (Z.to_nat lo) lst
    ++ (repl :: replicate (Z.to_nat (end_ - begin - 1)) None)
    ++ drop (Z.to_nat hi) lst.

(** ["".join(c for c in list_str if c is not None)] *)
Definition join (list_str : list (option pystr)) : pystr :=
  concat (omap id list_str).

(** [list(string)] *)
Definition list_of_str (string : pystr) : list (option pystr) :=
  (fun c => Some [c]) <$> string.

(** ** What the parser reports *)

(** An element of [wt.get_bolds_and_italics()].  [em_match] is [None] when
    [em._match] is falsy, otherwise [em._match.span(1)]. *)
Record BoldItalic : Type := {
  em_is_bold : bool;
  em_span : Z * Z;
  em_match : option (Z * Z);
}.

(** An element of [wt.get_tags()].  [tag_contents] is
    [tag._match.span("contents")], which is [(-1, -1)] when the group did
    not take part in the match. *)
Record Tag : Type := {
  tag_span : Z * Z;
  tag_contents : Z * Z;
  tag_attrs : gmap (list N) (list N);
  tag_name : pystr;
}.

(** An element of [wt.wikilinks]; [wl_match] is [None] when
    [wikilink._match] is falsy, otherwise [wikilink._match.span(4)]. *)
#[warnings="-register-all"]
Inductive WikiLink : Type := Build_WikiLink {
  wl_span : Z * Z;
  wl_wikilinks : list WikiLink;
  wl_match : option (Z * Z);
  wl_target : pystr;
}.

(** An element of [wt.templates]. *)
#[warnings="-register-all"]
Inductive Template : Type := Build_Template {
  tpl_span : Z * Z;
  tpl_templates : list Template;
  tpl_name : pystr;
}.

(** The object returned by [wikitextparser.parse]. *)
Record WikiText : Type := {
  get_bolds_and_italics : list BoldItalic;
  get_tags : list Tag;
  wikilinks : list WikiLink;
  templates : list Template;
}.

(** Truthiness of a Python list. *)
Definition truthy {X : Type} (l : list X) : bool :=
  match l with
  | [] => false
  | _ :: _ => true
  end.

(** ** Lookup tables *)

Definition TAG_MAPPING : gmap (list N) (list N) :=
  list_to_map
    [ (str "inc", str "**");
      (str "increase", str "**");
      (str "color-blue", str "**");
      (str "color-orange", str "**");
      (str "br", [10%N]) ].

(** ["\N{BLACK STAR}"] is U+2605. *)
Definition TEMPLATE_MAPPING : gmap (list N) (list N) :=
  list_to_map [ (str "star", [0x2605%N]) ].

(** ** The program *)

Section Display.

(** [api.WIKI_BASE] *)
Variable WIKI_BASE : pystr.

Definition urlify (s : pystr) : result pystr :=
  Urllib.quote (replace_space s).

Definition wiki_link (name : pystr) : result pystr :=
  u ← urlify name; Ok (WIKI_BASE ++ u).

(** [f"{link}"] for an [Optional[str]] *)
Definition format_optional (link : option pystr) : pystr :=
  match link with
  | Some l => l
  | None => str "None"
  end.

Definition discord_link (display : pystr) (link : option pystr)
    (from_display : bool) : result pystr :=
  link' ← (match link, from_display with
           | None, true => l ← wiki_link display; Ok (Some l)
           | _, _ => Ok link
           end);
  Ok (str "[" ++ display ++ str "](" ++ format_optional link' ++ str ")").

Section Passes.

Context {A : Type}.
(** How a replacement string is stored in a cell. *)
Variable tok : pystr → A.

Definition em_body (list_str : list (option A)) (em : BoldItalic)
  : result (list (option A)) :=
  let '(span_l, span_h) := em_span em in
  match em_match em with
  | None => Raise AssertionError
  | Some (match_l, match_h) =>
      let repl := Some (tok (if em_is_bold em then str "**" else str "_")) in
      let list_str := replace list_str span_l (span_l + match_l) repl in
      Ok (replace list_str (span_l + match_h) span_h repl)
  end.

Definition tag_body (list_str : list (option A)) (tag : Tag)
  : result (list (option A)) :=
  let '(span_l, span_h) := tag_span tag in
  let '(match_l, match_h) := tag_contents tag in
  if bool_decide (match_l ≠ -1) then
    match tag_attrs tag !! str "class" with
    | None => Raise KeyError
    | Some cls =>
        let repl := tok <$> TAG_MAPPING !! cls in
        let list_str := replace list_str span_l (span_l + match_l) repl in
        Ok (replace list_str (span_l + match_h) span_h repl)
    end
  else
    Ok (replace list_str span_l span_h (tok <$> TAG_MAPPING !! tag_name tag)).

Definition wikilink_body (list_str : list (option A)) (wikilink : WikiLink)
  : result (list (option A)) :=
  let '(span_l, span_h) := wl_span wikilink in
  if truthy (wl_wikilinks wikilink) then
    Ok (replace list_str span_l span_h (Some (tok (str "<placeholder1>"))))
  else
    match wl_match wikilink with
    | None => Raise AssertionError
    | Some (match_l, match_h) =>
        if bool_decide (match_l ≠ -1) then
          let list_str :=
            replace list_str span_l (span_l + match_l)
              (Some (tok (str "<placeholder2>"))) in
          Ok (replace list_str (span_l + match_h) span_h None)
        else
          l ← discord_link (wl_target wikilink) None true;
          Ok (replace list_str span_l span_h (Some (tok l)))
    end.

Definition template_body (list_str : list (option A)) (template : Template)
  : result (list (option A)) :=
  let '(span_l, span_h) := tpl_span template in
  if negb (truthy (tpl_templates template)) then
    Ok (replace list_str span_l span_h
          (tok <$> TEMPLATE_MAPPING !! tpl_name template))
  else Ok list_str.

(** The four loops of [parse_wiki_str], in source order. *)
Definition passes (wt : WikiText) (list_str : list (option A))
  : result (list (option A)) :=
  list_str ← for_each em_body (get_bolds_and_italics wt) list_str;
  list_str ← for_each tag_body (get_tags wt) list_str;
  list_str ← for_each wikilink_body (wikilinks wt) list_str;
  for_each template_body (templates wt) list_str.

End Passes.

(** [wikitextparser.parse] *)
Variable parse : pystr → WikiText.

Definition parse_wiki_str (string : pystr) : result pystr :=
  let wt := parse string in
  list_str ← passes id wt (list_of_str string);
  Ok (join list_str).

End Display.

(** ** Identifier resolution for tags *)

(** The key that [tag_body] hands to [TAG_MAPPING.get], read off its two
    branches ([tag.attrs["class"]] and [tag.name]). *)
Definition tag_lookup_key (tag : Tag) : result pystr :=
  if bool_decide ((tag_contents tag).1 ≠ -1) then
    match tag_attrs tag !! str "class" with
    | None => Raise KeyError
    | Some cls => Ok cls
    end
  else Ok (tag_name tag).

(** Identifier resolution as the specification words it: the class attribute
    if present, else the tag's own name. *)
Definition spec_tag_identifier (tag : Tag) : pystr :=
  default (tag_name tag) (tag_attrs tag !! str "class").

(** ** Provenance of cells

    To speak about which output characters are original, the passes are also
    run on cells that remember where they come from. *)

Inductive cell : Type :=
  | Orig (offset : nat) (c : N)   (* the input character at [offset] *)
  | Token (s : pystr).            (* a replacement string written by a pass *)

Definition render (c : cell) : pystr :=
  match c with
  | Orig _ ch => [ch]
  | Token s => s
  end.

(** [list(string)], every cell labelled with its offset. *)
Definition seed (string : pystr) : list (option cell) :=
  imap (fun i c => Some (Orig i c)) string.

(** The original characters still present in a buffer, in buffer order. *)
Definition origins (buf : list (option cell)) : list (nat * N) :=
  omap (fun c => match c with
                 | Some (Orig i ch) => Some (i, ch)
                 | _ => None
                 end) buf.

(** The input characters paired with their offsets. *)
Definition enumerate (string : pystr) : list (nat * N) :=
  imap (fun i c => (i, c)) string.

(** The strings a pass can write into a cell. *)
Definition replacement_token (WIKI_BASE : pystr) (wt : WikiText) (t : pystr)
  : Prop :=
  t = str "**" ∨ t = str "_"
  ∨ (∃ k, TAG_MAPPING !! k = Some t)
  ∨ t = str "<placeholder1>" ∨ t = str "<placeholder2>"
  ∨ (∃ wl, wl ∈ wikilinks wt
           ∧ discord_link WIKI_BASE (wl_target wl) None true = Ok t)
  ∨ (∃ k, TEMPLATE_MAPPING !! k = Some t).

(** A string that UTF-8 can encode: none of its code points is a surrogate. *)
Definition encodable (s : pystr) : Prop :=
  Forall (fun c => ¬ (0xD800 ≤ c ≤ 0xDFFF)%N) s.

(** Parser reports on which no pass raises: every match object is present,
    every tag with contents carries a class attribute, every plain page link
    has an encodable target. *)
Definition well_reported (wt : WikiText) : Prop :=
  Forall (fun em => is_Some (em_match em)) (get_bolds_and_italics wt)
  ∧ Forall (fun tag => (tag_contents tag).1 ≠ -1 →
                       is_Some (tag_attrs tag !! str "class")) (get_tags wt)
  ∧ Forall (fun wl => wl_wikilinks wl = [] →
                      ∃ ml mh, wl_match wl = Some (ml, mh)
                               ∧ (ml = -1 → encodable (wl_target wl)))
           (wikilinks wt).

(** ** Parser reports for the inputs used below

    Spans are code-point offsets into the input; [_match.span(..)] offsets are
    relative to the start of the construct. *)

Definition no_constructs : WikiText :=
  {| get_bolds_and_italics := []; get_tags := []; wikilinks := [];
     templates := [] |}.

(** ['''bold text'''] : one Bold over the whole input. *)
Definition report_bold_text : WikiText :=
  {| get_bolds_and_italics :=
       [ {| em_is_bold := true; em_span := (0, 15); em_match := Some (3, 12) |} ];
     get_tags := []; wikilinks := []; templates := [] |}.

(** [<b class='inc'>''text''</b>] : an Italic inside a tag. *)
Definition report_mixed : WikiText :=
  {| get_bolds_and_italics :=
       [ {| em_is_bold := false; em_span := (15, 23); em_match := Some (2, 6) |} ];
     get_tags :=
       [ {| tag_span := (0, 27); tag_contents := (15, 23);
            tag_attrs := {[ str "class" := str "inc" ]};
            tag_name := str "b" |} ];
     wikilinks := []; templates := [] |}.

(** [{{outer|{{star}}}}] : a template holding a template. *)
Definition tpl_star : Template :=
  Build_Template (8, 16) [] (str "star").
Definition tpl_outer : Template :=
  Build_Template (0, 18) [tpl_star] (str "outer").
Definition report_outer_star : WikiText :=
  {| get_bolds_and_italics := []; get_tags := []; wikilinks := [];
     templates := [tpl_outer; tpl_star] |}.

(** [{{a|{{b}}}}] : the same shape with two unmapped names. *)
Definition tpl_b : Template := Build_Template (4, 9) [] (str "b").
Definition tpl_a : Template := Build_Template (0, 11) [tpl_b] (str "a").
Definition report_a_b : WikiText :=
  {| get_bolds_and_italics := []; get_tags := []; wikilinks := [];
     templates := [tpl_a; tpl_b] |}.

(** [{{unmapped}}] *)
Definition report_unmapped : WikiText :=
  {| get_bolds_and_italics := []; get_tags := []; wikilinks := [];
     templates := [ Build_Template (0, 12) [] (str "unmapped") ] |}.

(** [[[Kiana]]] : a link without display text. *)
Definition wl_kiana : WikiLink :=
  Build_WikiLink (0, 9) [] (Some (-1, -1)) (str "Kiana").
Definition report_kiana : WikiText :=
  {| get_bolds_and_italics := []; get_tags := []; wikilinks := [wl_kiana];
     templates := [] |}.

(** [<b>x</b>] : a tag with contents and no attribute. *)
Definition tag_plain_b : Tag :=
  {| tag_span := (0, 8); tag_contents := (3, 4); tag_attrs := ∅;
     tag_name := str "b" |}.
Definition report_plain_b : WikiText :=
  {| get_bolds_and_italics := []; get_tags := [tag_plain_b]; wikilinks := [];
     templates := [] |}.

(** [<i>y</i>] : another tag with contents and no attribute. *)
Definition tag_plain_i : Tag :=
  {| tag_span := (0, 8); tag_contents := (3, 4); tag_attrs := ∅;
     tag_name := str "i" |}.
Definition report_plain_i : WikiText :=
  {| get_bolds_and_italics := []; get_tags := [tag_plain_i]; wikilinks := [];
     templates := [] |}.

(** [<br class='inc'/>] : a self-closing tag that has a class attribute. *)
Definition tag_br_inc : Tag :=
  {| tag_span := (0, 17); tag_contents := (-1, -1);
     tag_attrs := {[ str "class" := str "inc" ]};
     tag_name := str "br" |}.
Definition report_br_inc : WikiText :=
  {| get_bolds_and_italics := []; get_tags := [tag_br_inc]; wikilinks := [];
     templates := [] |}.

(** [<br/>] *)
Definition tag_br : Tag :=
  {| tag_span := (0, 5); tag_contents := (-1, -1); tag_attrs := ∅;
     tag_name := str "br" |}.
Definition report_br : WikiText :=
  {| get_bolds_and_italics := []; get_tags := [tag_br]; wikilinks := [];
     templates := [] |}.

(** [<hr/>] : a self-closing tag whose name has no mapping. *)
Definition tag_hr : Tag :=
  {| tag_span := (0, 5); tag_contents := (-1, -1); tag_attrs := ∅;
     tag_name := str "hr" |}.

(** [<b class='zz'>x</b>] : a tag whose class has no mapping. *)
Definition tag_b_zz : Tag :=
  {| tag_span := (0, 19); tag_contents := (14, 15);
     tag_attrs := {[ str "class" := str "zz" ]};
     tag_name := str "b" |}.

(** [''a] : an Italic that runs to the end of the line, so that its closing
    region is empty. *)
Definition report_open_italic : WikiText :=
  {| get_bolds_and_italics :=
       [ {| em_is_bold := false; em_span := (0, 3); em_match := Some (2, 3) |} ];
     get_tags := []; wikilinks := []; templates := [] |}.

(** Mapping over the value an operation returns. *)
#[global] Instance result_fmap : FMap result := fun A B f m =>
  match m with
  | Ok a => Ok (f a)
  | Raise e => Raise e
  end.

(** Applying a function to the content of every cell of a buffer. *)
Definition cells_map {A B : Type} (f : A → B) (lst : list (option A))
  : list (option B) :=
  option_map f <$> lst.

(** A cell that a pass writes: a token or a tombstone, never a character of
    the input. *)
Definition written (repl : option cell) : Prop :=
  match repl with
  | Some (Orig _ _) => False
  | _ => True
  end.

(** The tokens in a buffer all satisfy [P]. *)
Definition tokens_in (P : pystr → Prop) (buf : list (option cell)) : Prop :=
  ∀ t, Some (Token t) ∈ buf → P t.


(** The invariant of the passes on a labelled buffer: the surviving input
    characters are a subsequence of [O], and every token satisfies [P]. *)
Definition provenance_inv (O : list (nat * N)) (P : pystr → Prop)
    (buf : list (option cell)) : Prop :=
  origins buf `sublist_of` O ∧ tokens_in P buf.

(** Two lines, [''a] and [''b''] : the first Italic runs to the end of its
    line, the second one is closed. *)
Definition two_italics : pystr := str "''a" ++ [10%N] ++ str "''b''".
Definition report_two_italics : WikiText :=
  {| get_bolds_and_italics :=
       [ {| em_is_bold := false; em_span := (0, 3); em_match := Some (2, 3) |};
         {| em_is_bold := false; em_span := (4, 9); em_match := Some (2, 3) |} ];
     get_tags := []; wikilinks := []; templates := [] |}.

(** ** The other link builders *)

(** [image_link]: [f"{api.WIKI_BASE}/Special:Redirect/file/{urlify(name)}.png"] *)
Definition image_link (WIKI_BASE : pystr) (name : pystr) : result pystr :=
  u ← urlify name;
  Ok (WIKI_BASE ++ str "/Special:Redirect/file/" ++ u ++ str ".png").

(** A Python string holds code points up to U+10FFFF. *)
Definition unicode (s : pystr) : Prop := Forall (fun c => (c ≤ 0x10FFFF)%N) s.

(** The characters [urllib.parse.quote] can emit: the safe ones and ['%']. *)
Definition url_char (c : N) : bool := Urllib.is_safe c || (c =? 0x25)%N.

(** ** Regions written by the passes *)

(** A region a write overwrites cell by cell: not empty, inside a buffer of
    [n] cells. *)
Definition region_ok (n : Z) (r : Z * Z) : Prop :=
  0 ≤ r.1 ∧ r.1 < r.2 ∧ r.2 ≤ n.

(** Offset [i] lies in the half-open range [r]. *)
Definition inside (r : Z * Z) (i : nat) : Prop :=
  r.1 ≤ Z.of_nat i < r.2.

(** The regions each loop body passes to [replace], in the order of its
    calls; none when the body raises or skips the construct. *)
Definition em_regions (em : BoldItalic) : list (Z * Z) :=
  let '(span_l, span_h) := em_span em in
  match em_match em with
  | Some (match_l, match_h) =>
      [(span_l, span_l + match_l); (span_l + match_h, span_h)]
  | None => []
  end.

Definition tag_regions (tag : Tag) : list (Z * Z) :=
  let '(span_l, span_h) := tag_span tag in
  let '(match_l, match_h) := tag_contents tag in
  if bool_decide (match_l ≠ -1) then
    [(span_l, span_l + match_l); (span_l + match_h, span_h)]
  else [(span_l, span_h)].

Definition wikilink_regions (wikilink : WikiLink) : list (Z * Z) :=
  let '(span_l, span_h) := wl_span wikilink in
  if truthy (wl_wikilinks wikilink) then [(span_l, span_h)]
  else
    match wl_match wikilink with
    | Some (match_l, match_h) =>
        if bool_decide (match_l ≠ -1) then
          [(span_l, span_l + match_l); (span_l + match_h, span_h)]
        else [(span_l, span_h)]
    | None => []
    end.

Definition template_regions (template : Template) : list (Z * Z) :=
  let '(span_l, span_h) := tpl_span template in
  if negb (truthy (tpl_templates template)) then [(span_l, span_h)] else [].

(** All the regions written for [wt], in pass order. *)
Definition regions (wt : WikiText) : list (Z * Z) :=
  flat_map em_regions (get_bolds_and_italics wt)
    ++ flat_map tag_regions (get_tags wt)
    ++ flat_map wikilink_regions (wikilinks wt)
    ++ flat_map template_regions (templates wt).

(** ** Battlesuit descriptions

    Of [models.Battlesuit] the function reads [character], a [str], and
    [augment], an optional [str] tested for truthiness. *)
Record Battlesuit : Type := {
  character : pystr;
  augment : option pystr;
}.

(** Truthiness of an [Optional[str]]: neither [None] nor [""] *)
Definition truthy_str (o : option pystr) : bool :=
  match o with
  | Some (_ :: _) => true
  | _ => false
  end.

Definition battlesuit_description (WIKI_BASE : pystr) (battlesuit : Battlesuit)
  : result pystr :=
  head ← discord_link WIKI_BASE (character battlesuit) None true;
  tail ← (if truthy_str (augment battlesuit) then
            core ← discord_link WIKI_BASE (str "Augment Core") None true;
            aug ← discord_link WIKI_BASE (default [] (augment battlesuit))
                     None true;
            Ok ([10%N] ++ core ++ str " upgrade of " ++ aug)
          else Ok []);
  Ok (head ++ str " battlesuit." ++ tail).

(** [[[Kiana|the captain]]] : a link with display text. *)
Definition wl_captain : WikiLink :=
  Build_WikiLink (0, 21) [] (Some (8, 19)) (str "Kiana").
Definition report_captain : WikiText :=
  {| get_bolds_and_italics := []; get_tags := []; wikilinks := [wl_captain];
     templates := [] |}.

(** [hi '''x'''!] : a Bold between plain characters. *)
Definition report_greeting : WikiText :=
  {| get_bolds_and_italics :=
       [ {| em_is_bold := true; em_span := (3, 10); em_match := Some (3, 4) |} ];
     get_tags := []; wikilinks := []; templates := [] |}.

(** ** Sequences of writes *)

(** A write: the span handed to [replace] and the replacement. *)
Definition apply_writes {A : Type} (lst : list (option A))
    (ws : list (Z * Z * option A)) : list (option A) :=
  foldl (fun l w => replace l w.1.1 w.1.2 w.2) lst ws.

(** Region [r] begins at an offset of [span]. *)
Definition starts_inside (span r : Z * Z) : Prop := span.1 ≤ r.1 < span.2.

(** Region [r] and [span] share an offset. *)
Definition meets (span r : Z * Z) : Prop := r.1 < span.2 ∧ span.1 < r.2.

(** Every cell of [span] is a tombstone. *)
Definition tombstoned {A : Type} (span : Z * Z) (lst : list (option A))
  : Prop :=
  ∀ i : nat, inside span i → lst !! i = Some None.

(** The cells of [span] are what one write of [repl] over it leaves: [repl]
    at the first offset, tombstones after it. *)
Definition holds_write {A : Type} (span : Z * Z) (repl : option A)
    (lst : list (option A)) : Prop :=
  ∀ i : nat, inside span i →
    lst !! i = Some (if decide (Z.of_nat i = span.1) then repl else None).

(** The regions written after a given tag, link or template has been
    handled: those of the constructs that follow it in its own loop, and
    those of the later loops. *)
Definition regions_after_tag (wt : WikiText) (post : list Tag)
  : list (Z * Z) :=
  flat_map tag_regions post
    ++ flat_map wikilink_regions (wikilinks wt)
    ++ flat_map template_regions (templates wt).

Definition regions_after_wikilink (wt : WikiText) (post : list WikiLink)
  : list (Z * Z) :=
  flat_map wikilink_regions post ++ flat_map template_regions (templates wt).

Definition regions_after_template (post : list Template) : list (Z * Z) :=
  flat_map template_regions post.

(** The report [wt] with another list of templates. *)
Definition with_templates (wt : WikiText) (tpls : list Template) : WikiText :=
  {| get_bolds_and_italics := get_bolds_and_italics wt;
     get_tags := get_tags wt;
     wikilinks := wikilinks wt;
     templates := tpls |}.

(** The labelled buffer behind an output of [parse_wiki_str]: the result of
    the passes on the labelled input, one cell per input offset, whose
    rendering is the output. *)
Definition behind (WIKI_BASE : pystr) (wt : WikiText) (s out : pystr)
    (buf : list (option cell)) : Prop :=
  passes WIKI_BASE Token wt (seed s) = Ok buf
  ∧ length buf = length s
  ∧ out = concat (render <$> omap id buf).

(** The rendering of the cells of a stretch of the buffer. *)
Definition rendering (buf : list (option cell)) : pystr :=
  concat (render <$> omap id buf).

(** Inputs in which an Italic that runs to the end of its line precedes
    another construct. *)

(** [''a], newline, [{{outer|{{star}}}}] *)
Definition italic_then_templates : pystr :=
  str "''a" ++ [10%N] ++ str "{{outer|{{star}}}}".
Definition tpl_star_4 : Template := Build_Template (12, 20) [] (str "star").
Definition report_italic_then_templates : WikiText :=
  {| get_bolds_and_italics :=
       [ {| em_is_bold := false; em_span := (0, 3); em_match := Some (2, 3) |} ];
     get_tags := []; wikilinks := [];
     templates := [ Build_Template (4, 22) [tpl_star_4] (str "outer");
                    tpl_star_4 ] |}.

(** [''a], newline, [[[Kiana]]] *)
Definition italic_then_link : pystr := str "''a" ++ [10%N] ++ str "[[Kiana]]".
Definition report_italic_then_link : WikiText :=
  {| get_bolds_and_italics :=
       [ {| em_is_bold := false; em_span := (0, 3); em_match := Some (2, 3) |} ];
     get_tags := [];
     wikilinks := [ Build_WikiLink (4, 13) [] (Some (-1, -1)) (str "Kiana") ];
     templates := [] |}.

(** [''a], newline, a link to the page [Star ★] (space and U+2605 in the
    target). *)
Definition star_page : pystr := str "Star " ++ [0x2605%N].
Definition italic_then_star_link : pystr :=
  str "''a" ++ [10%N] ++ str "[[" ++ star_page ++ str "]]".
Definition report_italic_then_star_link : WikiText :=
  {| get_bolds_and_italics :=
       [ {| em_is_bold := false; em_span := (0, 3); em_match := Some (2, 3) |} ];
     get_tags := [];
     wikilinks := [ Build_WikiLink (4, 14) [] (Some (-1, -1)) star_page ];
     templates := [] |}.

(** [[[Star ★]]] alone. *)
Definition report_star_link : WikiText :=
  {| get_bolds_and_italics := []; get_tags := [];
     wikilinks := [ Build_WikiLink (0, 10) [] (Some (-1, -1)) star_page ];
     templates := [] |}.

(** [<hr/> and {{unmapped}}] : a self-closing tag and a template, both
    unmapped, between plain characters. *)
Definition hr_and_unmapped : pystr := str "a<hr/>b{{unmapped}}c".
Definition tpl_unmapped_7 : Template :=
  Build_Template (7, 19) [] (str "unmapped").
Definition tag_hr_1 : Tag :=
  {| tag_span := (1, 6); tag_contents := (-1, -1); tag_attrs := ∅;
     tag_name := str "hr" |}.
Definition report_hr_and_unmapped : WikiText :=
  {| get_bolds_and_italics := []; get_tags := [tag_hr_1]; wikilinks := [];
     templates := [tpl_unmapped_7] |}.

(** [a<b class='zz'>x</b>c] : a tag with contents whose class is unmapped. *)
Definition tag_b_zz_1 : Tag :=
  {| tag_span := (1, 20); tag_contents := (14, 15);
     tag_attrs := {[ str "class" := str "zz" ]};
     tag_name := str "b" |}.
Definition report_b_zz : WikiText :=
  {| get_bolds_and_italics := []; get_tags := [tag_b_zz_1]; wikilinks := [];
     templates := [] |}.

(** [a<br/>b] *)
Definition tag_br_1 : Tag :=
  {| tag_span := (1, 6); tag_contents := (-1, -1); tag_attrs := ∅;
     tag_name := str "br" |}.
Definition report_a_br_b : WikiText :=
  {| get_bolds_and_italics := []; get_tags := [tag_br_1]; wikilinks := [];
     templates := [] |}.

(** * Properties of the overlay buffer *)

Section ReplaceFacts.

Context {A : Type}.
Implicit Types (lst : list (option A)) (repl : option A).

Lemma slice_index_in_range (len i : Z) :
  0 ≤ i ≤ len → slice_index len i = i.
Proof.
  unfold slice_index. intros Hi.
  destruct (Z.ltb_spec i 0); lia.
Qed.

(** For a span inside the buffer the slice bounds are the span bounds. *)
Lemma replace_in_range lst (b e : Z) repl :
  0 ≤ b ≤ e → e ≤ Z.of_nat (length lst) →
  replace lst b e repl =
    take (Z.to_nat b) lst
      ++ (repl :: replicate (Z.to_nat (e - b - 1)) None)
      ++ drop (Z.to_nat e) lst.
Proof.
  intros Hbe He. unfold replace.
  rewrite !slice_index_in_range by lia.
  by rewrite Z.max_r by lia.
Qed.

(** Reading a list in which the segment [[b, e)] was replaced by [mid]. *)
Lemma lookup_splice {X : Type} (l mid : list X) (b e i : nat) :
  (b ≤ e ≤ length l)%nat → length mid = (e - b)%nat →
  (take b l ++ mid ++ drop e l) !! i =
    if decide (i < b)%nat then l !! i
    else if decide (i < e)%nat then mid !! (i - b)%nat
    else l !! i.
Proof.
  intros Hbe Hmid.
  rewrite lookup_app, lookup_app, lookup_drop.
  rewrite length_take_le, Hmid by lia.
  destruct (decide (i < b)%nat) as [Hib|Hib].
  - rewrite lookup_take_lt by lia.
    destruct (l !! i) eqn:E; [done|].
    apply lookup_ge_None in E. lia.
  - rewrite lookup_take_ge by lia.
    destruct (decide (i < e)%nat) as [Hie|Hie].
    + destruct (mid !! (i - b)%nat) eqn:E; [done|].
      apply lookup_ge_None in E. lia.
    + rewrite (proj2 (lookup_ge_None mid (i - b)%nat)) by lia.
      f_equal. lia.
Qed.

Lemma replace_length lst (b e : Z) repl :
  0 ≤ b < e → e ≤ Z.of_nat (length lst) →
  length (replace lst b e repl) = length lst.
Proof.
  intros Hbe He. rewrite replace_in_range by lia.
  rewrite length_app, length_take; simpl.
  rewrite length_app, length_replicate, length_drop. lia.
Qed.

(** An empty span is not overwritten: one cell is inserted. *)
Lemma replace_empty_span lst (b : Z) repl :
  0 ≤ b ≤ Z.of_nat (length lst) →
  replace lst b b repl =
    take (Z.to_nat b) lst ++ repl :: drop (Z.to_nat b) lst.
Proof.
  intros Hb. rewrite replace_in_range by lia.
  by replace (Z.to_nat (b - b - 1)) with 0%nat by lia.
Qed.

Lemma replace_empty_span_length lst (b : Z) repl :
  0 ≤ b ≤ Z.of_nat (length lst) →
  length (replace lst b b repl) = S (length lst).
Proof.
  intros Hb. rewrite replace_empty_span by lia.
  rewrite length_app, length_take; simpl. rewrite length_drop. lia.
Qed.

(** The cells of a non-empty span after a write, and the frame. *)
Lemma replace_lookup lst (b e : Z) repl (i : nat) :
  0 ≤ b < e → e ≤ Z.of_nat (length lst) →
  replace lst b e repl !! i =
    if decide (Z.of_nat i = b) then Some repl
    else if decide (b < Z.of_nat i < e) then Some None
    else lst !! i.
Proof.
  intros Hbe He. rewrite replace_in_range by lia.
  rewrite (lookup_splice lst _ (Z.to_nat b) (Z.to_nat e)); cycle 1.
  { lia. }
  { simpl. rewrite length_replicate. lia. }
  destruct (decide (i < Z.to_nat b)%nat) as [H1|H1].
  { rewrite decide_False by lia. by rewrite decide_False by lia. }
  destruct (decide (i < Z.to_nat e)%nat) as [H2|H2].
  - destruct (decide (Z.of_nat i = b)) as [H3|H3].
    + by replace (i - Z.to_nat b)%nat with 0%nat by lia.
    + rewrite decide_True by lia.
      destruct (i - Z.to_nat b)%nat as [|k] eqn:Ek; [lia|]. simpl.
      apply lookup_replicate_2. lia.
  - rewrite decide_False by lia. by rewrite decide_False by lia.
Qed.

Lemma replace_lookup_head lst (b e : Z) repl :
  0 ≤ b < e → e ≤ Z.of_nat (length lst) →
  replace lst b e repl !! Z.to_nat b = Some repl.
Proof.
  intros. rewrite replace_lookup by lia. by rewrite decide_True by lia.
Qed.

Lemma replace_lookup_tail lst (b e : Z) repl (i : nat) :
  0 ≤ b → e ≤ Z.of_nat (length lst) → b < Z.of_nat i < e →
  replace lst b e repl !! i = Some None.
Proof.
  intros. rewrite replace_lookup by lia.
  rewrite decide_False by lia. by rewrite decide_True by lia.
Qed.

Lemma replace_lookup_outside lst (b e : Z) repl (i : nat) :
  0 ≤ b < e → e ≤ Z.of_nat (length lst) →
  Z.of_nat i < b ∨ e ≤ Z.of_nat i →
  replace lst b e repl !! i = lst !! i.
Proof.
  intros. rewrite replace_lookup by lia.
  rewrite decide_False by lia. by rewrite decide_False by lia.
Qed.

End ReplaceFacts.

(** Compaction of the buffer. *)

Lemma join_app (l1 l2 : list (option pystr)) : join (l1 ++ l2) = join l1 ++ join l2.
Proof. unfold join. by rewrite omap_app, concat_app. Qed.

Lemma join_cons_Some (s : pystr) (l : list (option pystr)) :
  join (Some s :: l) = s ++ join l.
Proof. done. Qed.

Lemma join_cons_None (l : list (option pystr)) : join (None :: l) = join l.
Proof. done. Qed.

Lemma join_replicate_None (n : nat) : join (replicate n None) = [].
Proof. induction n as [|n IH]; [done|]. simpl. by rewrite join_cons_None. Qed.

Lemma join_list_of_str (s : pystr) : join (list_of_str s) = s.
Proof.
  induction s as [|c s IH]; [done|].
  change (list_of_str (c :: s)) with (Some [c] :: list_of_str s).
  rewrite join_cons_Some, IH. done.
Qed.

(** What a write contributes to the output: the replacement string once,
    between what precedes and what follows the span. *)
Lemma join_replace (lst : list (option pystr)) (b e : Z) (repl : option pystr) :
  0 ≤ b ≤ e → e ≤ Z.of_nat (length lst) →
  join (replace lst b e repl) =
    join (take (Z.to_nat b) lst) ++ default [] repl ++ join (drop (Z.to_nat e) lst).
Proof.
  intros Hbe He. rewrite replace_in_range by lia.
  rewrite join_app. f_equal.
  destruct repl as [s|]; simpl.
  - rewrite join_cons_Some, join_app, join_replicate_None. done.
  - rewrite join_cons_None, join_app, join_replicate_None. done.
Qed.

(** * The boundary rewrite: two writes around an untouched content span *)

Section BoundaryRewrite.

Context {A : Type}.
Implicit Types (lst : list (option A)) (repl : option A).

(** Cells after writing [repl] over [[L, l)] and over [[h, H)]. *)
Lemma boundary_rewrite_lookup lst (L l h H : Z) repl (i : nat) :
  0 ≤ L < l → l ≤ h → h < H → H ≤ Z.of_nat (length lst) →
  replace (replace lst L l repl) h H repl !! i =
    if decide (Z.of_nat i = L ∨ Z.of_nat i = h) then Some repl
    else if decide (L < Z.of_nat i < l ∨ h < Z.of_nat i < H) then Some None
    else lst !! i.
Proof.
  intros HL Hlh HhH HH.
  rewrite replace_lookup by (rewrite ?replace_length; lia).
  rewrite replace_lookup by lia.
  repeat case_decide; try done; lia.
Qed.

Lemma boundary_rewrite_length lst (L l h H : Z) repl :
  0 ≤ L < l → l ≤ h → h < H → H ≤ Z.of_nat (length lst) →
  length (replace (replace lst L l repl) h H repl) = length lst.
Proof.
  intros. rewrite !replace_length; rewrite ?replace_length; lia.
Qed.

(** The content span keeps every cell it had, including cells that an
    earlier pass has already rewritten. *)
Lemma boundary_rewrite_content lst (L l h H : Z) repl (i : nat) :
  0 ≤ L < l → l ≤ h → h < H → H ≤ Z.of_nat (length lst) →
  l ≤ Z.of_nat i < h →
  replace (replace lst L l repl) h H repl !! i = lst !! i.
Proof.
  intros. rewrite boundary_rewrite_lookup by lia.
  rewrite decide_False by lia. by rewrite decide_False by lia.
Qed.

(** The buffer after the two writes, segment by segment. *)
Lemma boundary_rewrite_segments lst (L l h H : Z) repl :
  0 ≤ L < l → l ≤ h → h < H → H ≤ Z.of_nat (length lst) →
  replace (replace lst L l repl) h H repl =
    take (Z.to_nat L) lst
      ++ (repl :: replicate (Z.to_nat (l - L - 1)) None)
      ++ take (Z.to_nat (h - l)) (drop (Z.to_nat l) lst)
      ++ (repl :: replicate (Z.to_nat (H - h - 1)) None)
      ++ drop (Z.to_nat H) lst.
Proof.
  intros HL Hlh HhH HH.
  rewrite (replace_in_range _ h H) by (rewrite ?replace_length; lia).
  rewrite (replace_in_range lst L l) by lia.
  set (P := take (Z.to_nat L) lst).
  set (M := repl :: replicate (Z.to_nat (l - L - 1)) None).
  assert (length P = Z.to_nat L) as HP
    by (unfold P; rewrite length_take; lia).
  assert (length M = Z.to_nat (l - L)) as HM
    by (unfold M; simpl; rewrite length_replicate; lia).
  rewrite take_app_ge, take_app_ge by lia.
  rewrite drop_app_ge, drop_app_ge, drop_drop by lia.
  rewrite HP, HM. rewrite <- !app_assoc.
  do 3 f_equal; [f_equal; lia|]. do 2 f_equal. lia.
Qed.

End BoundaryRewrite.

(** The output after a boundary rewrite: the token, the content as it was, the
    token again. *)
Lemma boundary_rewrite_join (lst : list (option pystr)) (L l h H : Z)
    (repl : option pystr) :
  0 ≤ L < l → l ≤ h → h < H → H ≤ Z.of_nat (length lst) →
  join (replace (replace lst L l repl) h H repl) =
    join (take (Z.to_nat L) lst)
      ++ default [] repl
      ++ join (take (Z.to_nat (h - l)) (drop (Z.to_nat l) lst))
      ++ default [] repl
      ++ join (drop (Z.to_nat H) lst).
Proof.
  intros. rewrite boundary_rewrite_segments by lia.
  rewrite !join_app.
  destruct repl as [s|];
    rewrite ?join_cons_Some, ?join_cons_None, !join_replicate_None;
    cbn [default]; by rewrite ?app_nil_r.
Qed.

(** * Loops *)

Lemma for_each_app {X S : Type} (body : S → X → result S) (xs ys : list X)
    (st : S) :
  for_each body (xs ++ ys) st = (st' ← for_each body xs st; for_each body ys st').
Proof.
  revert st. induction xs as [|x xs IH]; intros st; [done|].
  simpl. destruct (body st x) as [st'|e]; simpl; [apply IH|done].
Qed.

(** A loop whose body never raises returns. *)
Lemma for_each_returns {X S : Type} (body : S → X → result S) (xs : list X) :
  Forall (fun x => ∀ st, ∃ st', body st x = Ok st') xs →
  ∀ st, ∃ st', for_each body xs st = Ok st'.
Proof.
  induction 1 as [|x xs Hx _ IH]; intros st; [by eexists|].
  destruct (Hx st) as [st1 H1]. simpl. rewrite H1. simpl. apply IH.
Qed.

(** An invariant of the body is an invariant of the loop. *)
Lemma for_each_invariant {X S : Type} (body : S → X → result S)
    (I : S → Prop) (xs : list X) :
  Forall (fun x => ∀ st st', I st → body st x = Ok st' → I st') xs →
  ∀ st st', I st → for_each body xs st = Ok st' → I st'.
Proof.
  induction 1 as [|x xs Hx _ IH]; intros st st' Hst Hrun.
  - simpl in Hrun. by inversion Hrun; subst.
  - simpl in Hrun. destruct (body st x) as [st1|e] eqn:E; [|done].
    simpl in Hrun. eapply IH; [|exact Hrun]. by eapply Hx.
Qed.

(** * The passes do not depend on the cell type *)

Section Naturality.

Context {A B : Type} (f : A → B).

Lemma replace_fmap (lst : list (option A)) (b e : Z) (repl : option A) :
  cells_map f (replace lst b e repl)
  = replace (cells_map f lst) b e (option_map f repl).
Proof.
  unfold replace, cells_map. rewrite length_fmap.
  rewrite fmap_app, fmap_take. simpl.
  rewrite fmap_app, fmap_replicate, fmap_drop. done.
Qed.

Variable WIKI_BASE : pystr.
Variables (tokA : pystr → A) (tokB : pystr → B).
Hypothesis tok_f : ∀ s, f (tokA s) = tokB s.

Lemma tok_f_option (o : option pystr) :
  option_map f (tokA <$> o) = tokB <$> o.
Proof. destruct o; simpl; [by rewrite tok_f|done]. Qed.

Lemma em_body_natural (lst : list (option A)) (em : BoldItalic) :
  em_body tokB (cells_map f lst) em = cells_map f <$> em_body tokA lst em.
Proof.
  unfold em_body. destruct (em_span em) as [span_l span_h].
  destruct (em_match em) as [[match_l match_h]|]; [|done].
  simpl. by rewrite !replace_fmap, <- !tok_f.
Qed.

Lemma tag_body_natural (lst : list (option A)) (tag : Tag) :
  tag_body tokB (cells_map f lst) tag = cells_map f <$> tag_body tokA lst tag.
Proof.
  unfold tag_body. destruct (tag_span tag) as [span_l span_h].
  destruct (tag_contents tag) as [match_l match_h].
  case_bool_decide.
  - destruct (tag_attrs tag !! str "class") as [cls|]; [|done].
    simpl. by rewrite !replace_fmap, !tok_f_option.
  - simpl. by rewrite !replace_fmap, !tok_f_option.
Qed.

Lemma wikilink_body_natural (lst : list (option A)) (wikilink : WikiLink) :
  wikilink_body WIKI_BASE tokB (cells_map f lst) wikilink
  = cells_map f <$> wikilink_body WIKI_BASE tokA lst wikilink.
Proof.
  unfold wikilink_body. destruct (wl_span wikilink) as [span_l span_h].
  destruct (truthy (wl_wikilinks wikilink)).
  { simpl. by rewrite !replace_fmap, <- !tok_f. }
  destruct (wl_match wikilink) as [[match_l match_h]|]; [|done].
  case_bool_decide.
  - simpl. by rewrite !replace_fmap, <- !tok_f.
  - destruct (discord_link WIKI_BASE (wl_target wikilink) None true)
      as [l|e]; [|done].
    simpl. by rewrite !replace_fmap, <- !tok_f.
Qed.

Lemma template_body_natural (lst : list (option A)) (template : Template) :
  template_body tokB (cells_map f lst) template
  = cells_map f <$> template_body tokA lst template.
Proof.
  unfold template_body. destruct (tpl_span template) as [span_l span_h].
  destruct (truthy (tpl_templates template)); simpl; [done|].
  by rewrite !replace_fmap, !tok_f_option.
Qed.

Lemma for_each_natural {X : Type}
    (bodyA : list (option A) → X → result (list (option A)))
    (bodyB : list (option B) → X → result (list (option B))) :
  (∀ lst x, bodyB (cells_map f lst) x = cells_map f <$> bodyA lst x) →
  ∀ xs lst,
    for_each bodyB xs (cells_map f lst)
    = cells_map f <$> for_each bodyA xs lst.
Proof.
  intros Hbody xs. induction xs as [|x xs IH]; intros lst; [done|].
  simpl. rewrite Hbody. destruct (bodyA lst x) as [lst'|e]; [|done].
  simpl. apply IH.
Qed.

Lemma passes_natural (wt : WikiText) (lst : list (option A)) :
  passes WIKI_BASE tokB wt (cells_map f lst)
  = cells_map f <$> passes WIKI_BASE tokA wt lst.
Proof.
  unfold passes.
  rewrite (for_each_natural _ _ em_body_natural).
  destruct (for_each (em_body tokA) _ lst) as [l1|e]; [|done]. simpl.
  rewrite (for_each_natural _ _ tag_body_natural).
  destruct (for_each (tag_body tokA) _ l1) as [l2|e]; [|done]. simpl.
  rewrite (for_each_natural _ _ wikilink_body_natural).
  destruct (for_each (wikilink_body WIKI_BASE tokA) _ l2) as [l3|e]; [|done].
  simpl. apply (for_each_natural _ _ template_body_natural).
Qed.

End Naturality.

(** * Provenance: what survives of the input, and in which order *)

Lemma cells_map_seed (s : pystr) : cells_map render (seed s) = list_of_str s.
Proof.
  unfold cells_map, seed, list_of_str.
  rewrite fmap_imap. rewrite <- imap_const. by apply imap_ext.
Qed.

Lemma join_render (buf : list (option cell)) :
  join (cells_map render buf) = concat (render <$> omap id buf).
Proof.
  induction buf as [|[c|] buf IH]; [done| |].
  - change (cells_map render (Some c :: buf))
      with (Some (render c) :: cells_map render buf).
    rewrite join_cons_Some, IH. done.
  - change (cells_map render (None :: buf)) with (None :: cells_map render buf).
    rewrite join_cons_None, IH. done.
Qed.

Lemma origins_seed (s : pystr) : origins (seed s) = enumerate s.
Proof.
  unfold origins, seed, enumerate.
  cut (∀ g : nat → nat,
         omap (fun c => match c with
                        | Some (Orig i ch) => Some (i, ch)
                        | _ => None
                        end) (imap (fun i c => Some (Orig (g i) c)) s)
         = imap (fun i c => (g i, c)) s).
  { intros Hg. apply (Hg (fun i => i)). }
  induction s as [|c s IH]; intros g; [done|].
  rewrite !imap_cons. simpl. f_equal. apply (IH (g ∘ S)).
Qed.

Lemma omap_sublist {X Y : Type} (g : X → option Y) (l k : list X) :
  l `sublist_of` k → omap g l `sublist_of` omap g k.
Proof.
  induction 1 as [|x l k _ IH|x l k _ IH]; simpl.
  - constructor.
  - destruct (g x); [by constructor|done].
  - destruct (g x); [by constructor|done].
Qed.

Lemma sublist_take_drop {X : Type} (l : list X) (lo hi : nat) :
  (lo ≤ hi)%nat → take lo l ++ drop hi l `sublist_of` l.
Proof.
  intros Hle. rewrite <- (take_drop lo l) at 3.
  apply sublist_app; [done|].
  replace hi with (lo + (hi - lo))%nat by lia.
  rewrite <- drop_drop. apply sublist_drop.
Qed.

Lemma sublist_Forall {X : Type} (P : X → Prop) (l k : list X) :
  l `sublist_of` k → Forall P k → Forall P l.
Proof.
  induction 1 as [|x l k _ IH|x l k _ IH]; intros Hk; [done| |].
  - apply Forall_cons in Hk as [Hx Hk]. constructor; auto.
  - apply Forall_cons in Hk as [_ Hk]. auto.
Qed.

Lemma sublist_StronglySorted {X : Type} (R : X → X → Prop) (l k : list X) :
  l `sublist_of` k → StronglySorted R k → StronglySorted R l.
Proof.
  induction 1 as [|x l k Hlk IH|x l k _ IH]; intros Hk; [done| |].
  - apply StronglySorted_inv in Hk as [Hk Hx].
    constructor; [auto|]. by eapply sublist_Forall.
  - apply StronglySorted_inv in Hk as [Hk _]. auto.
Qed.

Lemma enumerate_elem_of (s : pystr) (i : nat) (c : N) :
  (i, c) ∈ enumerate s ↔ s !! i = Some c.
Proof.
  unfold enumerate. rewrite elem_of_lookup_imap. split.
  - intros (j & y & Heq & Hj). by inversion Heq; subst.
  - intros Hi. by exists i, c.
Qed.

Lemma enumerate_sorted (s : pystr) :
  StronglySorted (fun x y => (x.1 < y.1)%nat) (enumerate s).
Proof.
  unfold enumerate.
  cut (∀ g : nat → nat, (∀ a b, (a < b)%nat → (g a < g b)%nat) →
         StronglySorted (fun x y : nat * N => (x.1 < y.1)%nat)
           (imap (fun i c => (g i, c)) s)).
  { intros Hg. apply (Hg (fun i => i)). auto. }
  induction s as [|c s IH]; intros g Hmono; [constructor|].
  rewrite imap_cons. constructor.
  - apply (IH (g ∘ S)). intros a b Hab. apply Hmono. lia.
  - apply Forall_forall. intros [j d] Hin.
    apply elem_of_lookup_imap in Hin as (k & y & Heq & _).
    inversion Heq; subst. simpl. apply Hmono. lia.
Qed.

Lemma written_token (o : option pystr) : written (Token <$> o).
Proof. by destruct o. Qed.

Lemma origins_app (l k : list (option cell)) :
  origins (l ++ k) = origins l ++ origins k.
Proof. apply omap_app. Qed.

Lemma origins_replicate_None (n : nat) : origins (replicate n None) = [].
Proof. induction n; [done|]. simpl. done. Qed.

(** A write removes original characters, it never adds or moves one; this
    holds for every pair of bounds. *)
Lemma origins_replace (buf : list (option cell)) (b e : Z)
    (repl : option cell) :
  written repl → origins (replace buf b e repl) `sublist_of` origins buf.
Proof.
  intros Hrepl. unfold replace.
  set (lo := slice_index _ b). set (hi := Z.max lo _).
  rewrite origins_app,
    (origins_app (repl :: replicate _ None) (drop (Z.to_nat hi) buf)).
  assert (origins (repl :: replicate (Z.to_nat (e - b - 1)) None) = [])
    as ->.
  { change (repl :: ?l) with ([repl] ++ l).
    rewrite origins_app, origins_replicate_None.
    by destruct repl as [[]|]. }
  simpl. rewrite <- origins_app.
  apply omap_sublist, sublist_take_drop. lia.
Qed.

Lemma tokens_in_replace (P : pystr → Prop) (buf : list (option cell))
    (b e : Z) (o : option pystr) :
  (∀ t, o = Some t → P t) →
  tokens_in P buf → tokens_in P (replace buf b e (Token <$> o)).
Proof.
  intros Ho Hbuf t. unfold replace.
  rewrite elem_of_app, elem_of_app, elem_of_cons.
  intros [Hin|[[Heq|Hin]|Hin]].
  - apply Hbuf. by eapply subseteq_take.
  - destruct o as [t'|]; [|done]. inversion Heq; subst. by apply Ho.
  - by apply elem_of_replicate_inv in Hin.
  - apply Hbuf. by eapply subseteq_drop.
Qed.

Lemma tokens_in_seed (P : pystr → Prop) (s : pystr) : tokens_in P (seed s).
Proof.
  intros t Hin. unfold seed in Hin.
  apply elem_of_lookup_imap in Hin as (i & c & Heq & _). done.
Qed.

Section PassInvariants.

Variable WIKI_BASE : pystr.
Variable O : list (nat * N).
Variable P : pystr → Prop.

Lemma replace_inv (buf : list (option cell)) (b e : Z) (o : option pystr) :
  (∀ t, o = Some t → P t) →
  provenance_inv O P buf →
  provenance_inv O P (replace buf b e (Token <$> o)).
Proof.
  intros Ho [Horig Htok]. split.
  - etrans; [|exact Horig]. apply origins_replace, written_token.
  - by apply tokens_in_replace.
Qed.

Lemma replace_inv_token (buf : list (option cell)) (b e : Z) (t : pystr) :
  P t →
  provenance_inv O P buf →
  provenance_inv O P (replace buf b e (Some (Token t))).
Proof.
  intros Ht. apply (replace_inv buf b e (Some t)).
  intros t' Heq. by inversion Heq; subst.
Qed.

Lemma em_body_inv (buf buf' : list (option cell)) (em : BoldItalic) :
  P (str "**") → P (str "_") →
  provenance_inv O P buf → em_body Token buf em = Ok buf' →
  provenance_inv O P buf'.
Proof.
  intros Hb Hi Hinv. unfold em_body.
  destruct (em_span em) as [span_l span_h].
  destruct (em_match em) as [[match_l match_h]|]; [|done].
  intros [= <-].
  assert (P (if em_is_bold em then str "**" else str "_"))
    by (by destruct (em_is_bold em)).
  by do 2 (apply replace_inv_token; [done|]).
Qed.

Lemma tag_body_inv (buf buf' : list (option cell)) (tag : Tag) :
  (∀ k t, TAG_MAPPING !! k = Some t → P t) →
  provenance_inv O P buf → tag_body Token buf tag = Ok buf' →
  provenance_inv O P buf'.
Proof.
  intros Hmap Hinv. unfold tag_body.
  destruct (tag_span tag) as [span_l span_h].
  destruct (tag_contents tag) as [match_l match_h].
  case_bool_decide.
  - destruct (tag_attrs tag !! str "class") as [cls|]; [|done].
    intros [= <-]. do 2 (apply replace_inv; [by eauto|]). done.
  - intros [= <-]. apply replace_inv; [by eauto|done].
Qed.

Lemma wikilink_body_inv (buf buf' : list (option cell)) (wl : WikiLink) :
  P (str "<placeholder1>") → P (str "<placeholder2>") →
  (∀ t, discord_link WIKI_BASE (wl_target wl) None true = Ok t → P t) →
  provenance_inv O P buf → wikilink_body WIKI_BASE Token buf wl = Ok buf' →
  provenance_inv O P buf'.
Proof.
  intros H1 H2 Hlink Hinv. unfold wikilink_body.
  destruct (wl_span wl) as [span_l span_h].
  destruct (truthy (wl_wikilinks wl)).
  { intros [= <-]. by apply replace_inv_token. }
  destruct (wl_match wl) as [[match_l match_h]|]; [|done].
  case_bool_decide.
  - intros [= <-]. apply (replace_inv _ _ _ None); [done|].
    by apply replace_inv_token.
  - destruct (discord_link WIKI_BASE (wl_target wl) None true) as [l|err];
      [|done].
    simpl. intros [= <-]. apply replace_inv_token; [by apply Hlink|done].
Qed.

Lemma template_body_inv (buf buf' : list (option cell)) (tpl : Template) :
  (∀ k t, TEMPLATE_MAPPING !! k = Some t → P t) →
  provenance_inv O P buf → template_body Token buf tpl = Ok buf' →
  provenance_inv O P buf'.
Proof.
  intros Hmap Hinv. unfold template_body.
  destruct (tpl_span tpl) as [span_l span_h].
  destruct (truthy (tpl_templates tpl)); simpl.
  - by intros [= <-].
  - intros [= <-]. apply replace_inv; [by eauto|done].
Qed.

End PassInvariants.

Lemma passes_inv (WIKI_BASE : pystr) (O : list (nat * N)) (wt : WikiText)
    (buf buf' : list (option cell)) :
  provenance_inv O (replacement_token WIKI_BASE wt) buf →
  passes WIKI_BASE Token wt buf = Ok buf' →
  provenance_inv O (replacement_token WIKI_BASE wt) buf'.
Proof.
  intros Hinv. unfold passes.
  destruct (for_each (em_body Token) _ buf) as [b1|] eqn:E1; [|done].
  simpl.
  destruct (for_each (tag_body Token) _ b1) as [b2|] eqn:E2; [|done].
  simpl.
  destruct (for_each (wikilink_body WIKI_BASE Token) _ b2) as [b3|] eqn:E3;
    [|done].
  simpl. intros E4.
  eapply for_each_invariant in E1; [|apply Forall_forall; intros em _ st st'|exact Hinv].
  2: { apply em_body_inv; unfold replacement_token; tauto. }
  eapply for_each_invariant in E2;
    [|apply Forall_forall; intros tag _ st st'|exact E1].
  2: { apply tag_body_inv. intros k t Hk. unfold replacement_token. eauto 10. }
  eapply for_each_invariant in E3;
    [|apply Forall_forall; intros wl Hwl st st'|exact E2].
  2: { apply wikilink_body_inv; unfold replacement_token; [tauto|tauto|].
       intros t Ht. do 5 right. left. eauto. }
  eapply for_each_invariant in E4;
    [exact E4|apply Forall_forall; intros tpl _ st st'|exact E3].
  apply template_body_inv. intros k t Hk. unfold replacement_token. eauto 10.
Qed.

(** * Order of the output *)

(** C6. Whenever [parse_wiki_str] returns, its output is the concatenation, in
    buffer order, of the cells of the buffer that the same passes produce
    when every input character is labelled with its offset: each cell is an
    input character (rendered as itself) or a replacement token, tombstones
    contribute nothing, the input characters that remain form a subsequence
    of the input, so their offsets ascend strictly, and each token is one of
    the replacement strings of the passes. *)
Theorem output_keeps_input_order (WIKI_BASE : pystr)
    (parse : pystr → WikiText) (s out : pystr) :
  parse_wiki_str WIKI_BASE parse s = Ok out →
  ∃ buf : list (option cell),
    passes WIKI_BASE Token (parse s) (seed s) = Ok buf
    ∧ out = concat (render <$> omap id buf)
    ∧ origins buf `sublist_of` enumerate s
    ∧ StronglySorted (fun x y => (x.1 < y.1)%nat) (origins buf)
    ∧ (∀ i c, (i, c) ∈ origins buf → s !! i = Some c)
    ∧ tokens_in (replacement_token WIKI_BASE (parse s)) buf.
Proof.
  unfold parse_wiki_str. intros Hrun.
  rewrite <- cells_map_seed in Hrun.
  rewrite (passes_natural render WIKI_BASE Token id) in Hrun by done.
  destruct (passes WIKI_BASE Token (parse s) (seed s)) as [buf|e] eqn:E;
    [|done].
  simpl in Hrun. injection Hrun as <-.
  pose proof (passes_inv WIKI_BASE (enumerate s) (parse s) (seed s) buf) as Hinv.
  destruct Hinv as [Hsub Htok]; [|exact E|].
  { split; [by rewrite origins_seed|apply tokens_in_seed]. }
  exists buf. split; [done|]. split; [apply join_render|].
  split; [done|]. split; [|split; [|done]].
  - eapply sublist_StronglySorted; [exact Hsub|apply enumerate_sorted].
  - intros i c Hin. apply enumerate_elem_of.
    eapply sublist_Forall in Hsub; [|apply Forall_forall; intros x Hx; exact Hx].
    by eapply Forall_forall in Hsub.
Qed.

Lemma output_keeps_input_order_witness :
  ∃ buf : list (option cell),
    passes [] Token report_mixed (seed (str "<b class='inc'>''text''</b>"))
      = Ok buf
    ∧ str "**_text_**" = concat (render <$> omap id buf)
    ∧ origins buf `sublist_of` enumerate (str "<b class='inc'>''text''</b>")
    ∧ StronglySorted (fun x y => (x.1 < y.1)%nat) (origins buf)
    ∧ (∀ i c, (i, c) ∈ origins buf →
              str "<b class='inc'>''text''</b>" !! i = Some c)
    ∧ tokens_in (replacement_token [] report_mixed) buf.
Proof.
  apply (output_keeps_input_order [] (fun _ => report_mixed)
           (str "<b class='inc'>''text''</b>") (str "**_text_**")).
  vm_compute. reflexivity.
Defined.

(** * The link formatter *)

(** C10. With [link] omitted and [from_display=False], [discord_link] returns
    the literal ["[d](None)"] for every display string [d]; the URL defaults
    to the page URL of the display text only when [from_display] is [True];
    an explicit link is used as it is. *)
Theorem discord_link_without_default (WIKI_BASE d : pystr) :
  discord_link WIKI_BASE d None false = Ok (str "[" ++ d ++ str "](None)")
  ∧ discord_link WIKI_BASE d None true =
      (l ← wiki_link WIKI_BASE d; Ok (str "[" ++ d ++ str "](" ++ l ++ str ")"))
  ∧ ∀ (l : pystr) (from_display : bool),
      discord_link WIKI_BASE d (Some l) from_display =
        Ok (str "[" ++ d ++ str "](" ++ l ++ str ")").
Proof.
  split; [done|]. split.
  - unfold discord_link. by destruct (wiki_link WIKI_BASE d).
  - intros l fd. unfold discord_link. by destruct fd.
Qed.

Lemma discord_link_page (WIKI_BASE d u : pystr) :
  urlify d = Ok u →
  discord_link WIKI_BASE d None true =
    Ok (str "[" ++ d ++ str "](" ++ (WIKI_BASE ++ u) ++ str ")").
Proof.
  intros Hu. unfold discord_link, wiki_link. rewrite Hu. reflexivity.
Qed.

(** Only a surrogate makes [str.encode] fail. *)
Lemma utf8_encode_encodable (s : pystr) :
  encodable s → is_Some (Urllib.utf8_encode s).
Proof.
  induction 1 as [|c s Hc _ IH]; [by eexists|].
  destruct IH as [rest Hrest]. simpl. rewrite Hrest.
  assert (is_Some (Urllib.utf8_encode_char c)) as [bs ->]; [|by eexists].
  unfold Urllib.utf8_encode_char.
  destruct (N.ltb_spec c 128); [by eexists|].
  destruct (N.ltb_spec c 2048); [by eexists|].
  destruct (N.ltb_spec c 65536); [|by eexists].
  destruct (N.leb_spec 55296 c), (N.leb_spec c 57343); simpl;
    try (by eexists).
  exfalso. apply Hc. lia.
Qed.

Lemma replace_space_encodable (s : pystr) :
  encodable s → encodable (replace_space s).
Proof.
  unfold encodable, replace_space. intros Hs.
  apply Forall_fmap. eapply Forall_impl; [exact Hs|].
  intros c Hc. simpl. destruct (N.eqb_spec c 32); [lia|done].
Qed.

Lemma urlify_encodable (s : pystr) : encodable s → ∃ u, urlify s = Ok u.
Proof.
  intros Hs. unfold urlify, Urllib.quote.
  destruct (utf8_encode_encodable _ (replace_space_encodable _ Hs)) as [bs ->].
  by eexists.
Qed.

(** * The link pass *)

Lemma kiana_example (WIKI_BASE : pystr) :
  parse_wiki_str WIKI_BASE (fun _ => report_kiana) (str "[[Kiana]]") =
    Ok (str "[Kiana](" ++ WIKI_BASE ++ str "Kiana)").
Proof.
  unfold parse_wiki_str, passes, report_kiana, wl_kiana.
  cbn [get_bolds_and_italics get_tags wikilinks templates for_each mbind
       result_bind wikilink_body wl_span wl_wikilinks wl_match wl_target
       truthy].
  rewrite (bool_decide_eq_false_2 (-1 ≠ -1)) by (intros Hne; by apply Hne).
  rewrite (discord_link_page _ _ (str "Kiana")) by done.
  cbn [mbind result_bind id]. f_equal.
  rewrite join_replace by (simpl; lia).
  change (join (take _ _)) with (@nil N).
  change (join (drop _ _)) with (@nil N).
  cbn. by rewrite app_nil_r, <- app_assoc.
Qed.

(** * When the passes return and when they raise *)

Section Returns.

Variable WIKI_BASE : pystr.
Context {A : Type} (tok : pystr → A).

Lemma em_body_returns (lst : list (option A)) (em : BoldItalic) :
  is_Some (em_match em) → ∃ lst', em_body tok lst em = Ok lst'.
Proof.
  intros [[match_l match_h] Hm]. unfold em_body.
  destruct (em_span em) as [span_l span_h]. rewrite Hm. by eexists.
Qed.

(** The tag pass raises exactly on a tag with contents and no class. *)
Lemma tag_body_raises (lst : list (option A)) (tag : Tag) :
  (tag_contents tag).1 ≠ -1 → tag_attrs tag !! str "class" = None →
  tag_body tok lst tag = Raise KeyError.
Proof.
  intros Hc Hcls. unfold tag_body.
  destruct (tag_span tag) as [span_l span_h].
  destruct (tag_contents tag) as [match_l match_h]. simpl in Hc.
  rewrite bool_decide_eq_true_2 by done. by rewrite Hcls.
Qed.

Lemma tag_body_returns (lst : list (option A)) (tag : Tag) :
  ((tag_contents tag).1 ≠ -1 → is_Some (tag_attrs tag !! str "class")) →
  ∃ lst', tag_body tok lst tag = Ok lst'.
Proof.
  intros Hcls. unfold tag_body.
  destruct (tag_span tag) as [span_l span_h].
  destruct (tag_contents tag) as [match_l match_h]. simpl in Hcls.
  case_bool_decide; [|by eexists].
  destruct Hcls as [cls ->]; [done|]. by eexists.
Qed.

Lemma wikilink_body_returns (lst : list (option A)) (wl : WikiLink) :
  (wl_wikilinks wl = [] →
   ∃ ml mh, wl_match wl = Some (ml, mh)
            ∧ (ml = -1 → encodable (wl_target wl))) →
  ∃ lst', wikilink_body WIKI_BASE tok lst wl = Ok lst'.
Proof.
  intros Hwl. unfold wikilink_body.
  destruct (wl_span wl) as [span_l span_h].
  destruct (wl_wikilinks wl) as [|w ws]; [|by eexists]. simpl.
  destruct Hwl as (ml & mh & -> & Henc); [done|].
  case_bool_decide as Hml; [by eexists|].
  destruct (urlify_encodable (wl_target wl)) as [u Hu].
  { apply Henc. destruct (decide (ml = -1)); [done|]. by destruct Hml. }
  rewrite (discord_link_page _ _ u) by done. by eexists.
Qed.

Lemma template_body_returns (lst : list (option A)) (tpl : Template) :
  ∃ lst', template_body tok lst tpl = Ok lst'.
Proof.
  unfold template_body. destruct (tpl_span tpl) as [span_l span_h].
  destruct (negb (truthy (tpl_templates tpl))); by eexists.
Qed.

Lemma passes_returns (wt : WikiText) (lst : list (option A)) :
  well_reported wt → ∃ lst', passes WIKI_BASE tok wt lst = Ok lst'.
Proof.
  intros (Hem & Htag & Hwl). unfold passes.
  destruct (for_each_returns (em_body tok) (get_bolds_and_italics wt))
    with (st := lst) as [l1 ->].
  { eapply Forall_impl; [exact Hem|].
    intros em Hm st. by apply em_body_returns. }
  simpl.
  destruct (for_each_returns (tag_body tok) (get_tags wt))
    with (st := l1) as [l2 ->].
  { eapply Forall_impl; [exact Htag|].
    intros tag Hc st. by apply tag_body_returns. }
  simpl.
  destruct (for_each_returns (wikilink_body WIKI_BASE tok) (wikilinks wt))
    with (st := l2) as [l3 ->].
  { eapply Forall_impl; [exact Hwl|].
    intros wl Hc st. by apply wikilink_body_returns. }
  simpl.
  apply for_each_returns, Forall_forall.
  intros tpl _ st. apply template_body_returns.
Qed.

End Returns.

(** On well-reported constructs [parse_wiki_str] returns a string. *)
Lemma parse_wiki_str_returns (WIKI_BASE : pystr) (parse : pystr → WikiText)
    (s : pystr) :
  well_reported (parse s) → ∃ out, parse_wiki_str WIKI_BASE parse s = Ok out.
Proof.
  intros Hwt. unfold parse_wiki_str.
  destruct (passes_returns WIKI_BASE id (parse s) (list_of_str s) Hwt)
    as [lst ->].
  by eexists.
Qed.

(** An input in which the parser finds nothing is returned unchanged. *)
Lemma parse_wiki_str_passthrough (WIKI_BASE : pystr) (s : pystr) :
  parse_wiki_str WIKI_BASE (fun _ => no_constructs) s = Ok s.
Proof.
  unfold parse_wiki_str, passes. simpl. by rewrite join_list_of_str.
Qed.

(** The only exception of the tag pass is [KeyError]. *)
Lemma tag_body_raise_inv {A : Type} (tok : pystr → A) (lst : list (option A))
    (tag : Tag) (e : exn) :
  tag_body tok lst tag = Raise e → e = KeyError.
Proof.
  unfold tag_body. destruct (tag_span tag) as [span_l span_h].
  destruct (tag_contents tag) as [match_l match_h].
  case_bool_decide; [|done].
  destruct (tag_attrs tag !! str "class"); [done|]. by intros [= <-].
Qed.

(** One tag with contents and without class attribute makes the whole tag
    loop raise, wherever it stands in the sequence. *)
Lemma for_each_tag_body_raises {A : Type} (tok : pystr → A) (tags : list Tag)
    (tag : Tag) :
  tag ∈ tags →
  (tag_contents tag).1 ≠ -1 → tag_attrs tag !! str "class" = None →
  ∀ lst : list (option A), for_each (tag_body tok) tags lst = Raise KeyError.
Proof.
  intros Hin Hc Hcls. induction tags as [|t tags IH]; intros lst.
  { by apply elem_of_nil in Hin. }
  simpl. apply elem_of_cons in Hin as [<-|Hin].
  - by rewrite tag_body_raises.
  - destruct (tag_body tok lst t) as [lst'|e] eqn:E; simpl.
    + by apply IH.
    + by rewrite (tag_body_raise_inv tok lst t e E).
Qed.

(** C1. [parse_wiki_str] is not total: whenever the parser reports a tag
    with contents and without class attribute (and the emphasis matches are
    present, so that the first loop is passed), the tag pass evaluates
    [tag.attrs["class"]] and the call ends in [KeyError] instead of returning
    a string.  ["<b>x</b>"] is such an input. *)
Theorem parse_wiki_str_raises_KeyError (WIKI_BASE : pystr)
    (parse : pystr → WikiText) (s : pystr) (tag : Tag) :
  Forall (fun em => is_Some (em_match em)) (get_bolds_and_italics (parse s)) →
  tag ∈ get_tags (parse s) →
  (tag_contents tag).1 ≠ -1 →
  tag_attrs tag !! str "class" = None →
  parse_wiki_str WIKI_BASE parse s = Raise KeyError.
Proof.
  intros Hem Hin Hc Hcls. unfold parse_wiki_str, passes.
  destruct (for_each_returns (em_body id) (get_bolds_and_italics (parse s)))
    with (st := list_of_str s) as [l1 ->].
  { eapply Forall_impl; [exact Hem|].
    intros em Hm st. by apply em_body_returns. }
  simpl. by rewrite (for_each_tag_body_raises id _ tag).
Qed.

Lemma parse_wiki_str_raises_KeyError_witness :
  parse_wiki_str [] (fun _ => report_plain_b) (str "<b>x</b>") = Raise KeyError.
Proof.
  apply (parse_wiki_str_raises_KeyError [] (fun _ => report_plain_b)
           (str "<b>x</b>") tag_plain_b).
  - simpl. constructor.
  - simpl. apply elem_of_cons. by left.
  - simpl. lia.
  - reflexivity.
Defined.

(** * The emphasis and tag passes *)

Section EmphasisAndTags.

Context {A : Type} (tok : pystr → A).

(** The emphasis pass is the boundary rewrite with ["**"] or ["_"]. *)
Lemma em_body_boundary (lst : list (option A)) (em : BoldItalic)
    (L H ml mh : Z) :
  em_span em = (L, H) → em_match em = Some (ml, mh) →
  em_body tok lst em =
    let repl := Some (tok (if em_is_bold em then str "**" else str "_")) in
    Ok (replace (replace lst L (L + ml) repl) (L + mh) H repl).
Proof. intros Hs Hm. unfold em_body. by rewrite Hs, Hm. Qed.

(** On a tag with contents and a class attribute, the tag pass is the
    boundary rewrite with the token mapped to the class. *)
Lemma tag_body_boundary (lst : list (option A)) (tag : Tag)
    (L H ml mh : Z) (cls : pystr) :
  tag_span tag = (L, H) → tag_contents tag = (ml, mh) → ml ≠ -1 →
  tag_attrs tag !! str "class" = Some cls →
  tag_body tok lst tag =
    let repl := tok <$> TAG_MAPPING !! cls in
    Ok (replace (replace lst L (L + ml) repl) (L + mh) H repl).
Proof.
  intros Hs Hc Hml Hcls. unfold tag_body. rewrite Hs, Hc, Hcls.
  by rewrite bool_decide_eq_true_2 by done.
Qed.

(** On a tag without contents the tag pass is one write over the span. *)
Lemma tag_body_self_closing (lst : list (option A)) (tag : Tag)
    (L H : Z) :
  tag_span tag = (L, H) → (tag_contents tag).1 = -1 →
  tag_body tok lst tag =
    Ok (replace lst L H (tok <$> TAG_MAPPING !! tag_name tag)).
Proof.
  intros Hs Hc. unfold tag_body. rewrite Hs.
  destruct (tag_contents tag) as [ml mh]. simpl in Hc. subst ml.
  by rewrite bool_decide_eq_false_2 by (intros Hne; by apply Hne).
Qed.

(** With delimiters on both sides and a span inside the buffer, the emphasis
    pass writes the token at [L] and at [h], tombstones the rest of the two
    delimiter regions, and leaves every other cell, the content span
    included, as it was. *)
Lemma em_body_cells (lst : list (option A)) (em : BoldItalic)
    (L H ml mh : Z) :
  em_span em = (L, H) → em_match em = Some (ml, mh) →
  0 ≤ L → 0 < ml → ml ≤ mh → L + mh < H → H ≤ Z.of_nat (length lst) →
  ∃ lst', em_body tok lst em = Ok lst'
    ∧ length lst' = length lst
    ∧ ∀ i : nat,
        lst' !! i =
          if decide (Z.of_nat i = L ∨ Z.of_nat i = L + mh)
          then Some (Some (tok (if em_is_bold em then str "**" else str "_")))
          else if decide (L < Z.of_nat i < L + ml ∨ L + mh < Z.of_nat i < H)
          then Some None
          else lst !! i.
Proof.
  intros Hs Hm HL Hml Hmh HH Hlen.
  rewrite (em_body_boundary lst em L H ml mh) by done.
  eexists. split; [done|]. split.
  - apply boundary_rewrite_length; lia.
  - intros i. apply boundary_rewrite_lookup; lia.
Qed.

Lemma tag_body_cells (lst : list (option A)) (tag : Tag)
    (L H ml mh : Z) (cls : pystr) :
  tag_span tag = (L, H) → tag_contents tag = (ml, mh) →
  tag_attrs tag !! str "class" = Some cls →
  0 ≤ L → 0 < ml → ml ≤ mh → L + mh < H → H ≤ Z.of_nat (length lst) →
  ∃ lst', tag_body tok lst tag = Ok lst'
    ∧ length lst' = length lst
    ∧ ∀ i : nat,
        lst' !! i =
          if decide (Z.of_nat i = L ∨ Z.of_nat i = L + mh)
          then Some (tok <$> TAG_MAPPING !! cls)
          else if decide (L < Z.of_nat i < L + ml ∨ L + mh < Z.of_nat i < H)
          then Some None
          else lst !! i.
Proof.
  intros Hs Hc Hcls HL Hml Hmh HH Hlen.
  rewrite (tag_body_boundary lst tag L H ml mh cls) by (done || lia).
  eexists. split; [done|]. split.
  - apply boundary_rewrite_length; lia.
  - intros i. apply boundary_rewrite_lookup; lia.
Qed.

End EmphasisAndTags.

Example bold_text_example (WIKI_BASE : pystr) :
  parse_wiki_str WIKI_BASE (fun _ => report_bold_text) (str "'''bold text'''")
  = Ok (str "**bold text**").
Proof. reflexivity. Qed.

Example mixed_nesting_example (WIKI_BASE : pystr) :
  parse_wiki_str WIKI_BASE (fun _ => report_mixed)
    (str "<b class='inc'>''text''</b>")
  = Ok (str "**_text_**").
Proof. vm_compute. reflexivity. Qed.

(** C2. The boundary rewrite is not carried out on every tag with contents:
    on a tag without class attribute, such as the one of ["<i>y</i>"], the tag
    pass writes nothing over either delimiter region, it raises [KeyError],
    for every buffer and every cell type. *)
Theorem tag_without_class_is_not_rewritten (WIKI_BASE : pystr) {A : Type}
    (tok : pystr → A) (lst : list (option A)) :
  tag_body tok lst tag_plain_i = Raise KeyError
  ∧ parse_wiki_str WIKI_BASE (fun _ => report_plain_i) (str "<i>y</i>")
    = Raise KeyError.
Proof. split; reflexivity. Qed.

(** * Writes over an empty span *)

(** An emphasis run that ends with its line has an empty closing region; the
    write over it inserts a cell, and the spans of the constructs that follow
    then address the wrong cells. *)
Example open_italic_shifts_offsets (WIKI_BASE : pystr) :
  parse_wiki_str WIKI_BASE (fun _ => report_open_italic) (str "''a")
  = Ok (str "_a_")
  ∧ parse_wiki_str WIKI_BASE (fun _ => report_two_italics) two_italics
    = Ok (str "_a__'_'").
Proof. split; reflexivity. Qed.

(** C5. A write over an empty span does not keep one cell per offset.  In the
    buffer of ["''a"], after the opening region [[0, 2)] has been written,
    the write over the empty closing region [[3, 3)] adds a fourth cell; in
    the buffer of ["ab"] the write over [[1, 1)] puts a tombstone at offset 1
    and moves ["b"] from offset 1 to offset 2. *)
Theorem replace_empty_span_inserts :
  replace (list_of_str (str "''a")) 0 2 (Some (str "_"))
    = [Some (str "_"); None; Some (str "a")]
  ∧ replace [Some (str "_"); None; Some (str "a")] 3 3 (Some (str "_"))
    = [Some (str "_"); None; Some (str "a"); Some (str "_")]
  ∧ length (replace [Some (str "_"); None; Some (str "a")] 3 3 (Some (str "_")))
    = 4%nat
  ∧ replace (list_of_str (str "ab")) 1 1 None
    = [Some (str "a"); None; Some (str "b")].
Proof. repeat split; reflexivity. Qed.

(** * Identifier resolution and unmapped identifiers *)

(** [tag_lookup_key] is the key of the lookup that [tag_body] performs. *)
Lemma tag_body_key {A : Type} (tok : pystr → A) (lst : list (option A))
    (tag : Tag) :
  tag_body tok lst tag =
    (key ← tag_lookup_key tag;
     let repl := tok <$> TAG_MAPPING !! key in
     let '(span_l, span_h) := tag_span tag in
     let '(match_l, match_h) := tag_contents tag in
     if bool_decide (match_l ≠ -1) then
       Ok (replace (replace lst span_l (span_l + match_l) repl)
             (span_l + match_h) span_h repl)
     else Ok (replace lst span_l span_h repl)).
Proof.
  unfold tag_body, tag_lookup_key.
  destruct (tag_span tag) as [span_l span_h].
  destruct (tag_contents tag) as [match_l match_h]. simpl.
  case_bool_decide; [|done].
  by destruct (tag_attrs tag !! str "class").
Qed.

(** A write of the tombstone leaves only tombstones in the span. *)
Lemma replace_None_lookup {A : Type} (lst : list (option A)) (b e : Z)
    (i : nat) :
  0 ≤ b → e ≤ Z.of_nat (length lst) → b ≤ Z.of_nat i < e →
  replace lst b e None !! i = Some None.
Proof.
  intros Hb He Hi. rewrite replace_lookup by lia.
  case_decide; [done|]. by rewrite decide_True by lia.
Qed.

(** C4 as stated fails: the self-closing tag of ["<br class='inc'/>"] has a
    class attribute, yet the key of the lookup is its name, ["br"], and the
    output is a newline, not the ["**"] mapped to ["inc"]. *)
Lemma tag_identifier_counterexample :
  tag_lookup_key tag_br_inc = Ok (str "br")
  ∧ spec_tag_identifier tag_br_inc = str "inc"
  ∧ tag_lookup_key tag_br_inc ≠ Ok (spec_tag_identifier tag_br_inc)
  ∧ parse_wiki_str [] (fun _ => report_br_inc) (str "<br class='inc'/>")
    = Ok [10%N].
Proof. repeat split; try reflexivity. vm_compute. discriminate. Qed.

(** C4, amended. For a tag with contents that carries a class attribute the
    key of the lookup is the class attribute; for a tag without contents
    (self-closing) the key is the tag's name, whatever its attributes.  In
    both cases the token written is the one mapped to that key. *)
Theorem tag_identifier_by_branch {A : Type} (tok : pystr → A)
    (lst : list (option A)) (tag : Tag) (L H ml mh : Z) :
  tag_span tag = (L, H) → tag_contents tag = (ml, mh) →
  (ml ≠ -1 → ∀ cls, tag_attrs tag !! str "class" = Some cls →
     tag_lookup_key tag = Ok cls
     ∧ tag_body tok lst tag =
         Ok (replace (replace lst L (L + ml) (tok <$> TAG_MAPPING !! cls))
               (L + mh) H (tok <$> TAG_MAPPING !! cls)))
  ∧ (ml = -1 →
     tag_lookup_key tag = Ok (tag_name tag)
     ∧ tag_body tok lst tag =
         Ok (replace lst L H (tok <$> TAG_MAPPING !! tag_name tag))).
Proof.
  intros Hs Hc. split.
  - intros Hml cls Hcls. split.
    + unfold tag_lookup_key. rewrite Hc, Hcls. simpl.
      by rewrite bool_decide_eq_true_2 by done.
    + by rewrite (tag_body_boundary tok lst tag L H ml mh cls).
  - intros ->. split.
    + unfold tag_lookup_key. by rewrite Hc.
    + apply tag_body_self_closing; [done|by rewrite Hc].
Qed.

Lemma tag_identifier_by_branch_witness :
  (tag_lookup_key tag_br_inc = Ok (str "br")
   ∧ tag_body id (list_of_str (str "<br class='inc'/>")) tag_br_inc
     = Ok (replace (list_of_str (str "<br class='inc'/>")) 0 17
             (id <$> TAG_MAPPING !! str "br")))
  ∧ (tag_lookup_key tag_b_zz = Ok (str "zz")
     ∧ tag_body id (list_of_str (str "<b class='zz'>x</b>")) tag_b_zz
       = Ok (replace
               (replace (list_of_str (str "<b class='zz'>x</b>")) 0 (0 + 14)
                  (id <$> TAG_MAPPING !! str "zz"))
               (0 + 15) 19 (id <$> TAG_MAPPING !! str "zz"))).
Proof.
  split.
  - apply (proj2 (tag_identifier_by_branch id
                    (list_of_str (str "<br class='inc'/>")) tag_br_inc
                    0 17 (-1) (-1) eq_refl eq_refl)).
    reflexivity.
  - apply (proj1 (tag_identifier_by_branch id
                    (list_of_str (str "<b class='zz'>x</b>")) tag_b_zz
                    0 19 14 15 eq_refl eq_refl)).
    + lia.
    + reflexivity.
Defined.

(** C7 as stated fails: the identifier ["outer"] of the outer template of
    ["{{outer|{{star}}}}"] has no entry in [TEMPLATE_MAPPING], yet its span is
    not tombstoned: the template pass leaves the buffer as it is, and
    ["{{outer|"] and ["}}"] reach the output. *)
Lemma unmapped_nested_template_counterexample :
  TEMPLATE_MAPPING !! tpl_name tpl_outer = None
  ∧ template_body id (list_of_str (str "{{outer|{{star}}}}")) tpl_outer
    = Ok (list_of_str (str "{{outer|{{star}}}}"))
  ∧ template_body id (list_of_str (str "{{outer|{{star}}}}")) tpl_outer
    ≠ Ok (replace (list_of_str (str "{{outer|{{star}}}}")) 0 18 None)
  ∧ parse_wiki_str [] (fun _ => report_outer_star) (str "{{outer|{{star}}}}")
    = Ok (str "{{outer|" ++ [0x2605%N] ++ str "}}").
Proof.
  split; [by vm_compute|]. split; [reflexivity|].
  split; [vm_compute; discriminate|]. by vm_compute.
Qed.

(** C9 as stated fails.  The self-closing tag of ["<br/>"] is replaced by a
    newline, not by the empty string; and the outer template of
    ["{{a|{{b}}}}"], whose name is unmapped, is not removed: only the inner
    template collapses. *)
Lemma full_span_collapse_counterexample :
  parse_wiki_str [] (fun _ => report_br) (str "<br/>") = Ok [10%N]
  ∧ TEMPLATE_MAPPING !! tpl_name tpl_a = None
  ∧ parse_wiki_str [] (fun _ => report_a_b) (str "{{a|{{b}}}}")
    = Ok (str "{{a|}}").
Proof. repeat split; by vm_compute. Qed.

(** * Further properties of the overlay buffer *)

(** X1. For a span that starts inside the buffer, the buffer has after the
    write [len - (min(end, len) - begin) + max(1, end - begin)] cells; it
    keeps its length exactly when the span is non-empty and ends inside the
    buffer, and grows otherwise. *)
Theorem replace_length_iff {A : Type} (lst : list (option A)) (b e : Z)
    (repl : option A) :
  0 ≤ b ≤ Z.of_nat (length lst) → b ≤ e →
  Z.of_nat (length (replace lst b e repl))
    = Z.of_nat (length lst) - (Z.min e (Z.of_nat (length lst)) - b)
      + Z.max 1 (e - b)
  ∧ (length (replace lst b e repl) = length lst
     ↔ b < e ∧ e ≤ Z.of_nat (length lst))
  ∧ (length lst ≤ length (replace lst b e repl))%nat.
Proof.
  intros Hb Hbe.
  assert (Z.of_nat (length (replace lst b e repl))
          = Z.of_nat (length lst) - (Z.min e (Z.of_nat (length lst)) - b)
            + Z.max 1 (e - b)) as Hlen.
  { unfold replace, slice_index.
    destruct (Z.ltb_spec b 0); [lia|]. destruct (Z.ltb_spec e 0); [lia|].
    rewrite length_app, length_take. simpl.
    rewrite length_app, length_replicate, length_drop. lia. }
  split; [exact Hlen|]. split; [|lia]. split; lia.
Qed.

Lemma replace_length_iff_witness :
  length (replace (list_of_str (str "abc")) 1 2 None)
  = length (list_of_str (str "abc")).
Proof.
  apply (proj1 (proj2 (replace_length_iff (list_of_str (str "abc")) 1 2 None
                         ltac:(simpl; lia) ltac:(lia)))).
  simpl. lia.
Defined.

(** X2. Last writer wins: a write over a span that contains the span of an
    earlier write leaves nothing of the earlier one. *)
Theorem replace_covering_write_wins {A : Type} (lst : list (option A))
    (b1 e1 b2 e2 : Z) (r1 r2 : option A) :
  0 ≤ b2 → b2 ≤ b1 → b1 < e1 → e1 ≤ e2 → e2 ≤ Z.of_nat (length lst) →
  replace (replace lst b1 e1 r1) b2 e2 r2 = replace lst b2 e2 r2.
Proof.
  intros. apply list_eq. intros i.
  rewrite replace_lookup by (rewrite ?replace_length; lia).
  rewrite (replace_lookup lst b2 e2) by lia.
  rewrite replace_lookup by lia.
  repeat case_decide; try done; lia.
Qed.

Lemma replace_covering_write_wins_witness :
  replace (replace (list_of_str (str "{{star|[[x]]}}")) 7 12 (Some (str "L")))
    0 14 (Some [0x2605%N])
  = replace (list_of_str (str "{{star|[[x]]}}")) 0 14 (Some [0x2605%N]).
Proof.
  apply (replace_covering_write_wins (list_of_str (str "{{star|[[x]]}}"))
           7 12 0 14); simpl; lia.
Defined.

(** X3. Writes over disjoint non-empty spans inside the buffer commute. *)
Theorem replace_disjoint_commute {A : Type} (lst : list (option A))
    (b1 e1 b2 e2 : Z) (r1 r2 : option A) :
  0 ≤ b1 → b1 < e1 → e1 ≤ b2 → b2 < e2 → e2 ≤ Z.of_nat (length lst) →
  replace (replace lst b1 e1 r1) b2 e2 r2
  = replace (replace lst b2 e2 r2) b1 e1 r1.
Proof.
  intros. apply list_eq. intros i.
  rewrite !replace_lookup by (rewrite ?replace_length; lia).
  repeat case_decide; try done; lia.
Qed.

Lemma replace_disjoint_commute_witness :
  replace (replace (list_of_str (str "''a''b")) 0 2 (Some (str "_"))) 3 5
    (Some (str "_"))
  = replace (replace (list_of_str (str "''a''b")) 3 5 (Some (str "_"))) 0 2
      (Some (str "_")).
Proof.
  apply (replace_disjoint_commute (list_of_str (str "''a''b")) 0 2 3 5);
    simpl; lia.
Defined.

(** * Further properties of the passes *)

Section Frames.

Context {A : Type}.
Implicit Types (lst : list (option A)) (repl : option A).

(** A sequence of writes, each over a non-empty region inside the buffer,
    keeps the length and every cell outside the regions. *)
Lemma one_write_frame lst (r : Z * Z) repl :
  region_ok (Z.of_nat (length lst)) r →
  length (replace lst r.1 r.2 repl) = length lst
  ∧ ∀ i : nat, ¬ inside r i → replace lst r.1 r.2 repl !! i = lst !! i.
Proof.
  intros (HL & HLH & HH). split; [apply replace_length; lia|].
  intros i Hi. unfold inside in Hi.
  apply replace_lookup_outside; lia.
Qed.

Lemma two_writes_frame lst (r1 r2 : Z * Z) (repl1 repl2 : option A) :
  Forall (region_ok (Z.of_nat (length lst))) [r1; r2] →
  length (replace (replace lst r1.1 r1.2 repl1) r2.1 r2.2 repl2) = length lst
  ∧ ∀ i : nat, ¬ Exists (fun r => inside r i) [r1; r2] →
      replace (replace lst r1.1 r1.2 repl1) r2.1 r2.2 repl2 !! i = lst !! i.
Proof.
  intros Hok.
  apply Forall_cons in Hok as [H1 Hok]. apply Forall_cons in Hok as [H2 _].
  destruct (one_write_frame lst r1 repl1 H1) as [Hlen1 Hf1].
  destruct (one_write_frame (replace lst r1.1 r1.2 repl1) r2 repl2)
    as [Hlen2 Hf2]; [by rewrite Hlen1|].
  split; [congruence|]. intros i Hi.
  rewrite Hf2, Hf1; [done| |]; intros Hin; apply Hi.
  - by apply Exists_cons_hd.
  - by apply Exists_cons_tl, Exists_cons_hd.
Qed.

Variable WIKI_BASE : pystr.
Variable tok : pystr → A.

Lemma em_body_frame lst lst' (em : BoldItalic) :
  Forall (region_ok (Z.of_nat (length lst))) (em_regions em) →
  em_body tok lst em = Ok lst' →
  length lst' = length lst
  ∧ ∀ i : nat, ¬ Exists (fun r => inside r i) (em_regions em) →
      lst' !! i = lst !! i.
Proof.
  unfold em_regions, em_body.
  destruct (em_span em) as [L H].
  destruct (em_match em) as [[ml mh]|]; [|done].
  intros Hok [= <-]. by apply (two_writes_frame lst (L, L + ml) (L + mh, H)).
Qed.

Lemma tag_body_frame lst lst' (tag : Tag) :
  Forall (region_ok (Z.of_nat (length lst))) (tag_regions tag) →
  tag_body tok lst tag = Ok lst' →
  length lst' = length lst
  ∧ ∀ i : nat, ¬ Exists (fun r => inside r i) (tag_regions tag) →
      lst' !! i = lst !! i.
Proof.
  unfold tag_regions, tag_body.
  destruct (tag_span tag) as [L H].
  destruct (tag_contents tag) as [ml mh].
  case_bool_decide.
  - destruct (tag_attrs tag !! str "class"); [|done].
    intros Hok [= <-].
    by apply (two_writes_frame lst (L, L + ml) (L + mh, H)).
  - intros Hok [= <-]. apply Forall_cons in Hok as [Hok _].
    destruct (one_write_frame lst (L, H)
                (tok <$> TAG_MAPPING !! tag_name tag) Hok) as [Hlen Hf].
    split; [done|]. intros i Hi. apply Hf.
    intros Hin. apply Hi. by apply Exists_cons_hd.
Qed.

Lemma wikilink_body_frame lst lst' (wl : WikiLink) :
  Forall (region_ok (Z.of_nat (length lst))) (wikilink_regions wl) →
  wikilink_body WIKI_BASE tok lst wl = Ok lst' →
  length lst' = length lst
  ∧ ∀ i : nat, ¬ Exists (fun r => inside r i) (wikilink_regions wl) →
      lst' !! i = lst !! i.
Proof.
  unfold wikilink_regions, wikilink_body.
  destruct (wl_span wl) as [L H].
  assert (∀ repl lst0,
            Forall (region_ok (Z.of_nat (length lst))) [(L, H)] →
            Ok (replace lst L H repl) = Ok lst0 →
            length lst0 = length lst
            ∧ ∀ i : nat, ¬ Exists (fun r => inside r i) [(L, H)] →
                lst0 !! i = lst !! i) as Hone.
  { intros repl lst0 Hok [= <-]. apply Forall_cons in Hok as [Hok _].
    destruct (one_write_frame lst (L, H) repl Hok) as [Hlen Hf].
    split; [done|]. intros i Hi. apply Hf.
    intros Hin. apply Hi. by apply Exists_cons_hd. }
  destruct (truthy (wl_wikilinks wl)); [by apply Hone|].
  destruct (wl_match wl) as [[ml mh]|]; [|done].
  case_bool_decide.
  - intros Hok [= <-].
    by apply (two_writes_frame lst (L, L + ml) (L + mh, H)).
  - destruct (discord_link WIKI_BASE (wl_target wl) None true); [|done].
    simpl. by apply Hone.
Qed.

Lemma template_body_frame lst lst' (tpl : Template) :
  Forall (region_ok (Z.of_nat (length lst))) (template_regions tpl) →
  template_body tok lst tpl = Ok lst' →
  length lst' = length lst
  ∧ ∀ i : nat, ¬ Exists (fun r => inside r i) (template_regions tpl) →
      lst' !! i = lst !! i.
Proof.
  unfold template_regions, template_body.
  destruct (tpl_span tpl) as [L H].
  destruct (negb (truthy (tpl_templates tpl))).
  - intros Hok [= <-]. apply Forall_cons in Hok as [Hok _].
    destruct (one_write_frame lst (L, H)
                (tok <$> TEMPLATE_MAPPING !! tpl_name tpl) Hok) as [Hlen Hf].
    split; [done|]. intros i Hi. apply Hf.
    intros Hin. apply Hi. by apply Exists_cons_hd.
  - by intros _ [= <-].
Qed.

(** A loop whose body keeps the length and the cells outside the regions of
    its construct keeps the length and the cells outside all the regions. *)
Lemma for_each_frame {X : Type}
    (body : list (option A) → X → result (list (option A)))
    (rs : X → list (Z * Z)) (xs : list X) (n : nat) :
  (∀ lst lst' x,
     Forall (region_ok (Z.of_nat (length lst))) (rs x) →
     body lst x = Ok lst' →
     length lst' = length lst
     ∧ ∀ i : nat, ¬ Exists (fun r => inside r i) (rs x) →
         lst' !! i = lst !! i) →
  Forall (region_ok (Z.of_nat n)) (flat_map rs xs) →
  ∀ lst lst', length lst = n → for_each body xs lst = Ok lst' →
    length lst' = n
    ∧ ∀ i : nat, ¬ Exists (fun r => inside r i) (flat_map rs xs) →
        lst' !! i = lst !! i.
Proof.
  intros Hbody. induction xs as [|x xs IH]; intros Hok lst lst' Hn Hrun.
  - simpl in Hrun. injection Hrun as <-. done.
  - simpl in Hrun, Hok. apply Forall_app in Hok as [Hx Hxs].
    destruct (body lst x) as [l1|] eqn:E; [|done].
    simpl in Hrun. rewrite <- Hn in Hx.
    destruct (Hbody lst l1 x Hx E) as [Hlen Hframe].
    destruct (IH Hxs l1 lst') as [Hlen' Hframe']; [congruence|done|].
    split; [done|]. intros i Hi. simpl in Hi.
    rewrite Hframe' by (intros Hex; apply Hi; apply Exists_app; by right).
    apply Hframe. intros Hin. apply Hi. apply Exists_app. by left.
Qed.

Lemma passes_frame (wt : WikiText) lst lst' :
  Forall (region_ok (Z.of_nat (length lst))) (regions wt) →
  passes WIKI_BASE tok wt lst = Ok lst' →
  length lst' = length lst
  ∧ ∀ i : nat, ¬ Exists (fun r => inside r i) (regions wt) →
      lst' !! i = lst !! i.
Proof.
  unfold regions. intros Hok.
  apply Forall_app in Hok as [Hem Hok]. apply Forall_app in Hok as [Htag Hok].
  apply Forall_app in Hok as [Hwl Htpl].
  unfold passes.
  destruct (for_each (em_body tok) _ lst) as [l1|] eqn:E1; [|done]. simpl.
  destruct (for_each (tag_body tok) _ l1) as [l2|] eqn:E2; [|done]. simpl.
  destruct (for_each (wikilink_body WIKI_BASE tok) _ l2) as [l3|] eqn:E3;
    [|done].
  simpl. intros E4.
  eapply (for_each_frame _ em_regions) in E1 as [H1 F1];
    [|apply em_body_frame|exact Hem|done].
  eapply (for_each_frame _ tag_regions) in E2 as [H2 F2];
    [|apply tag_body_frame|exact Htag|done].
  eapply (for_each_frame _ wikilink_regions) in E3 as [H3 F3];
    [|apply wikilink_body_frame|exact Hwl|done].
  eapply (for_each_frame _ template_regions) in E4 as [H4 F4];
    [|apply template_body_frame|exact Htpl|done].
  split; [done|]. intros i Hi.
  rewrite !Exists_app in Hi.
  rewrite F4, F3, F2, F1 by tauto. done.
Qed.

End Frames.

(** X4. One cell per offset, for the whole pipeline: when every region the
    passes write is non-empty and inside the buffer, the buffer has after the
    four passes the length it had before, for every cell type. *)
Theorem passes_keep_length (WIKI_BASE : pystr) {A : Type} (tok : pystr → A)
    (wt : WikiText) (lst lst' : list (option A)) :
  Forall (region_ok (Z.of_nat (length lst))) (regions wt) →
  passes WIKI_BASE tok wt lst = Ok lst' →
  length lst' = length lst.
Proof. intros Hok Hrun. by destruct (passes_frame WIKI_BASE tok wt lst lst'). Qed.

Lemma passes_keep_length_witness :
  ∃ lst',
    passes [] id report_mixed (list_of_str (str "<b class='inc'>''text''</b>"))
      = Ok lst'
    ∧ length lst' = length (list_of_str (str "<b class='inc'>''text''</b>")).
Proof.
  eexists. split; [vm_compute; reflexivity|].
  apply (passes_keep_length [] id report_mixed
           (list_of_str (str "<b class='inc'>''text''</b>"))).
  - repeat constructor; simpl; lia.
  - vm_compute. reflexivity.
Defined.

(** The run on labelled cells that stands behind a returned output. *)
Lemma parse_wiki_str_labelled (WIKI_BASE : pystr) (parse : pystr → WikiText)
    (s out : pystr) :
  parse_wiki_str WIKI_BASE parse s = Ok out →
  ∃ buf : list (option cell),
    passes WIKI_BASE Token (parse s) (seed s) = Ok buf
    ∧ out = concat (render <$> omap id buf).
Proof.
  unfold parse_wiki_str. intros Hrun.
  rewrite <- cells_map_seed in Hrun.
  rewrite (passes_natural render WIKI_BASE Token id) in Hrun by done.
  destruct (passes WIKI_BASE Token (parse s) (seed s)) as [buf|e] eqn:E;
    [|done].
  simpl in Hrun. injection Hrun as <-.
  exists buf. split; [done|apply join_render].
Qed.

(** X5. Characters that no write touches survive where they are: when every
    region the passes write is non-empty and inside the input, the buffer
    behind the output has one cell per input offset, and at every offset
    outside all written regions (plain text, and the content between the
    delimiters of a construct) this cell is the input character itself. *)
Theorem unwritten_characters_survive (WIKI_BASE : pystr)
    (parse : pystr → WikiText) (s out : pystr) :
  Forall (region_ok (Z.of_nat (length s))) (regions (parse s)) →
  parse_wiki_str WIKI_BASE parse s = Ok out →
  ∃ buf : list (option cell),
    passes WIKI_BASE Token (parse s) (seed s) = Ok buf
    ∧ out = concat (render <$> omap id buf)
    ∧ length buf = length s
    ∧ ∀ (i : nat) (c : N),
        s !! i = Some c →
        ¬ Exists (fun r => inside r i) (regions (parse s)) →
        buf !! i = Some (Some (Orig i c)).
Proof.
  intros Hok Hrun.
  destruct (parse_wiki_str_labelled _ _ _ _ Hrun) as (buf & Hbuf & Hout).
  assert (length (seed s) = length s) as Hseed
    by (unfold seed; apply length_imap).
  destruct (passes_frame WIKI_BASE Token (parse s) (seed s) buf)
    as [Hlen Hframe]; [by rewrite Hseed|done|].
  exists buf. split; [done|]. split; [done|]. split; [congruence|].
  intros i c Hi Hcov. rewrite Hframe by done.
  unfold seed. rewrite list_lookup_imap, Hi. done.
Qed.

Lemma unwritten_characters_survive_witness :
  ∃ buf : list (option cell),
    passes [] Token report_greeting (seed (str "hi '''x'''!")) = Ok buf
    ∧ str "hi **x**!" = concat (render <$> omap id buf)
    ∧ length buf = length (str "hi '''x'''!")
    ∧ ∀ (i : nat) (c : N),
        str "hi '''x'''!" !! i = Some c →
        ¬ Exists (fun r => inside r i) (regions report_greeting) →
        buf !! i = Some (Some (Orig i c)).
Proof.
  apply (unwritten_characters_survive [] (fun _ => report_greeting)
           (str "hi '''x'''!") (str "hi **x**!")).
  - repeat constructor; simpl; lia.
  - vm_compute. reflexivity.
Defined.

(** * The percent-encoding of names *)

(** A property checked on every number below [n] holds below [n]. *)
Lemma N_below_forall (P : N → bool) (n : nat) :
  forallb P (N.of_nat <$> seq 0 n) = true →
  ∀ y : N, (y < N.of_nat n)%N → P y = true.
Proof.
  intros Hall y Hy. rewrite forallb_forall in Hall. apply Hall.
  apply in_map_iff. exists (N.to_nat y). split; [lia|].
  apply in_seq. lia.
Qed.

(** Closed [Forall] goals over string literals. *)
Ltac forall_literal :=
  unfold encodable, unicode;
  match goal with
  | |- Forall ?P ?l => let l' := eval vm_compute in l in change (Forall P l')
  end;
  repeat (apply Forall_cons; split; [lia|]); apply Forall_nil_2.

Lemma lor_0x80 (y : N) : (y < 64 → N.lor 0x80 y = 0x80 + y)%N.
Proof.
  intros Hy. apply N.eqb_eq.
  by apply (N_below_forall (fun y => N.lor 0x80 y =? 0x80 + y)%N 64).
Qed.

Lemma lor_0xC0 (y : N) : (y < 32 → N.lor 0xC0 y = 0xC0 + y)%N.
Proof.
  intros Hy. apply N.eqb_eq.
  by apply (N_below_forall (fun y => N.lor 0xC0 y =? 0xC0 + y)%N 32).
Qed.

Lemma lor_0xE0 (y : N) : (y < 16 → N.lor 0xE0 y = 0xE0 + y)%N.
Proof.
  intros Hy. apply N.eqb_eq.
  by apply (N_below_forall (fun y => N.lor 0xE0 y =? 0xE0 + y)%N 16).
Qed.

Lemma lor_0xF0 (y : N) : (y < 8 → N.lor 0xF0 y = 0xF0 + y)%N.
Proof.
  intros Hy. apply N.eqb_eq.
  by apply (N_below_forall (fun y => N.lor 0xF0 y =? 0xF0 + y)%N 8).
Qed.

Lemma land_0x3F (x : N) : N.land x 0x3F = (x mod 64)%N.
Proof. change 0x3F%N with (N.ones 6). by rewrite N.land_ones. Qed.

(** UTF-8 in arithmetic form, for the code points of Python strings. *)
Lemma utf8_encode_char_arith (c : N) :
  (c ≤ 0x10FFFF)%N →
  Urllib.utf8_encode_char c =
    (if c <? 0x80 then Some [c]
     else if c <? 0x800 then Some [0xC0 + c / 64; 0x80 + c mod 64]
     else if c <? 0x10000 then
       if (0xD800 <=? c) && (c <=? 0xDFFF) then None
       else Some [0xE0 + c / 4096; 0x80 + (c / 64) mod 64; 0x80 + c mod 64]
     else Some [0xF0 + c / 262144; 0x80 + (c / 4096) mod 64;
                0x80 + (c / 64) mod 64; 0x80 + c mod 64])%N.
Proof.
  intros Hc. unfold Urllib.utf8_encode_char.
  rewrite !land_0x3F, !N.shiftr_div_pow2.
  change (2 ^ 6)%N with 64%N. change (2 ^ 12)%N with 4096%N.
  change (2 ^ 18)%N with 262144%N.
  rewrite !lor_0x80 by (apply N.mod_lt; lia).
  destruct (N.ltb_spec c 128); [done|].
  destruct (N.ltb_spec c 2048).
  { rewrite lor_0xC0; [done|]. apply N.Div0.div_lt_upper_bound; lia. }
  destruct (N.ltb_spec c 65536).
  { rewrite lor_0xE0; [done|]. apply N.Div0.div_lt_upper_bound; lia. }
  rewrite lor_0xF0; [done|]. apply N.Div0.div_lt_upper_bound; lia.
Qed.

Ltac Zify.zify_post_hook ::= Z.to_euclidean_division_equations.

(** Every byte of the encoding is a byte. *)
Lemma utf8_encode_char_bytes (c : N) (bs : list N) :
  (c ≤ 0x10FFFF)%N → Urllib.utf8_encode_char c = Some bs →
  Forall (fun b => (b < 256)%N) bs.
Proof.
  intros Hc. rewrite utf8_encode_char_arith by done.
  destruct (N.ltb_spec c 128).
  { intros [= <-]. repeat constructor. lia. }
  destruct (N.ltb_spec c 2048).
  { intros [= <-]. repeat constructor; lia. }
  destruct (N.ltb_spec c 65536).
  { destruct ((0xD800 <=? c)%N && (c <=? 0xDFFF)%N); [done|].
    intros [= <-]. repeat constructor; lia. }
  intros [= <-]. repeat constructor; lia.
Qed.

(** The encodings of two code points never begin alike: if one encoding
    followed by anything equals the other followed by anything, the code
    points are the same. *)
Lemma utf8_encode_char_prefix_free (c1 c2 : N) (bs1 bs2 r1 r2 : list N) :
  (c1 ≤ 0x10FFFF)%N → (c2 ≤ 0x10FFFF)%N →
  Urllib.utf8_encode_char c1 = Some bs1 →
  Urllib.utf8_encode_char c2 = Some bs2 →
  bs1 ++ r1 = bs2 ++ r2 → c1 = c2 ∧ r1 = r2.
Proof.
  intros H1 H2. rewrite !utf8_encode_char_arith by done.
  destruct (N.ltb_spec c1 128); [|destruct (N.ltb_spec c1 2048);
    [|destruct (N.ltb_spec c1 65536);
      [destruct ((0xD800 <=? c1)%N && (c1 <=? 0xDFFF)%N); [done|]|]]];
  (destruct (N.ltb_spec c2 128); [|destruct (N.ltb_spec c2 2048);
    [|destruct (N.ltb_spec c2 65536);
      [destruct ((0xD800 <=? c2)%N && (c2 <=? 0xDFFF)%N); [done|]|]]]);
  intros [= <-] [= <-]; simpl; intros Heq;
  injection Heq as Hb0 Heq;
  try (exfalso; lia);
  repeat (let Hb := fresh "Hb" in injection Heq as Hb Heq);
  (split; [lia|done]).
Qed.

Ltac Zify.zify_post_hook ::= idtac.

Lemma utf8_encode_cons (c : N) (s : pystr) (bs : list N) :
  Urllib.utf8_encode (c :: s) = Some bs ↔
  ∃ b r, Urllib.utf8_encode_char c = Some b ∧ Urllib.utf8_encode s = Some r
         ∧ bs = b ++ r.
Proof.
  simpl. destruct (Urllib.utf8_encode_char c) as [b|];
    destruct (Urllib.utf8_encode s) as [r|]; split;
    try (intros [= <-]; by eauto); try done;
    intros (b' & r' & Hb & Hr & ->); congruence.
Qed.

Lemma utf8_encode_char_nonempty (c : N) (bs : list N) :
  Urllib.utf8_encode_char c = Some bs → bs ≠ [].
Proof.
  unfold Urllib.utf8_encode_char.
  repeat case_match; intros [= <-]; done.
Qed.

(** UTF-8 is injective on Python strings. *)
Lemma utf8_encode_inj (s1 s2 : pystr) (bs : list N) :
  unicode s1 → unicode s2 →
  Urllib.utf8_encode s1 = Some bs → Urllib.utf8_encode s2 = Some bs →
  s1 = s2.
Proof.
  intros Hu1. revert s2 bs.
  induction Hu1 as [|c1 s1 Hc1 _ IH]; intros s2 bs Hu2 H1 H2.
  - simpl in H1. injection H1 as <-.
    destruct s2 as [|c2 s2]; [done|].
    apply utf8_encode_cons in H2 as (b & r & Hb & _ & Heq).
    apply utf8_encode_char_nonempty in Hb. by destruct b.
  - apply utf8_encode_cons in H1 as (b1 & r1 & Hb1 & Hr1 & ->).
    destruct s2 as [|c2 s2].
    { simpl in H2. injection H2 as H2.
      apply utf8_encode_char_nonempty in Hb1. by destruct b1. }
    apply utf8_encode_cons in H2 as (b2 & r2 & Hb2 & Hr2 & Heq).
    apply Forall_cons in Hu2 as [Hc2 Hu2].
    destruct (utf8_encode_char_prefix_free c1 c2 b1 b2 r1 r2) as [-> ->];
      try done.
    f_equal. by eapply IH.
Qed.

Lemma utf8_encode_bytes (s : pystr) (bs : list N) :
  unicode s → Urllib.utf8_encode s = Some bs →
  Forall (fun b => (b < 256)%N) bs.
Proof.
  intros Hu. revert bs. induction Hu as [|c s Hc _ IH]; intros bs.
  - by intros [= <-].
  - intros (b & r & Hb & Hr & ->)%utf8_encode_cons.
    apply Forall_app. split; [by eapply utf8_encode_char_bytes|by apply IH].
Qed.

(** Only a surrogate makes the encoding fail. *)
Lemma utf8_encode_char_None (c : N) :
  Urllib.utf8_encode_char c = None ↔ (0xD800 ≤ c ≤ 0xDFFF)%N.
Proof.
  unfold Urllib.utf8_encode_char.
  destruct (N.ltb_spec c 128); [split; [done|lia]|].
  destruct (N.ltb_spec c 2048); [split; [done|lia]|].
  destruct (N.ltb_spec c 65536); [|split; [done|lia]].
  destruct (N.leb_spec 55296 c), (N.leb_spec c 57343); simpl;
    split; try done; lia.
Qed.

Lemma utf8_encode_is_Some (s : pystr) :
  is_Some (Urllib.utf8_encode s) ↔ encodable s.
Proof.
  split; [|apply utf8_encode_encodable].
  induction s as [|c s IH]; [by constructor|].
  intros [bs (b & r & Hb & Hr & _)%utf8_encode_cons].
  constructor; [|by apply IH; eexists].
  intros Hc. apply utf8_encode_char_None in Hc. congruence.
Qed.

Lemma replace_space_encodable_iff (s : pystr) :
  encodable (replace_space s) ↔ encodable s.
Proof.
  unfold encodable, replace_space. rewrite Forall_fmap.
  split; intros H; (eapply Forall_impl; [exact H|]); intros c Hc; simpl in *;
    destruct (N.eqb_spec c 32); lia.
Qed.

Lemma urlify_Ok_iff (s : pystr) : (∃ u, urlify s = Ok u) ↔ encodable s.
Proof.
  rewrite <- replace_space_encodable_iff, <- utf8_encode_is_Some.
  unfold urlify, Urllib.quote.
  destruct (Urllib.utf8_encode (replace_space s)) as [bs|]; split.
  - by eexists.
  - by eexists.
  - by intros [? ?].
  - by intros [? ?].
Qed.

Lemma urlify_raises (s : pystr) :
  ¬ encodable s → urlify s = Raise UnicodeEncodeError.
Proof.
  intros Hs. unfold urlify, Urllib.quote.
  destruct (Urllib.utf8_encode (replace_space s)) as [bs|] eqn:E; [|done].
  destruct Hs. apply replace_space_encodable_iff, utf8_encode_is_Some.
  by eexists.
Qed.

(** ** The characters of an encoded name *)

Lemma hex_digit_safe (d : N) :
  (d < 16)%N → Urllib.is_safe (Urllib.hex_digit d) = true.
Proof.
  apply (N_below_forall (fun d => Urllib.is_safe (Urllib.hex_digit d)) 16).
  by vm_compute.
Qed.

Lemma quote_byte_chars (b : N) :
  (b < 256)%N → Forall (fun c => url_char c = true) (Urllib.quote_byte b).
Proof.
  intros Hb. unfold Urllib.quote_byte, url_char.
  destruct (Urllib.is_safe b) eqn:E.
  - repeat constructor. by rewrite E.
  - unfold Urllib.percent. repeat constructor.
    + rewrite hex_digit_safe; [done|]. apply N.Div0.div_lt_upper_bound. lia.
    + rewrite hex_digit_safe; [done|]. apply N.mod_lt. lia.
Qed.

Lemma url_char_ascii (c : N) : url_char c = true → (32 < c < 127)%N.
Proof.
  unfold url_char, Urllib.is_safe.
  rewrite !orb_true_iff, !andb_true_iff, !N.leb_le, !N.eqb_eq. lia.
Qed.

Lemma replace_space_unicode (s : pystr) : unicode s → unicode (replace_space s).
Proof.
  unfold unicode, replace_space. intros Hs. apply Forall_fmap.
  eapply Forall_impl; [exact Hs|].
  intros c Hc. unfold compose. cbv beta in *.
  destruct (N.eqb_spec c 32); lia.
Qed.

Lemma quote_chars (bs : list N) :
  Forall (fun b => (b < 256)%N) bs →
  Forall (fun c => url_char c = true) (concat (Urllib.quote_byte <$> bs)).
Proof.
  induction 1 as [|b bs Hb _ IH]; [constructor|].
  simpl. apply Forall_app. split; [by apply quote_byte_chars|done].
Qed.

(** X6. The path segment that [urlify] builds from a Python string consists
    of unreserved characters, ['/'] and ['%'] only; all of them are printable
    ASCII and none is a space. *)
Theorem urlify_output_alphabet (s u : pystr) :
  unicode s → urlify s = Ok u →
  Forall (fun c => url_char c = true ∧ (32 < c < 127)%N) u.
Proof.
  intros Hs. unfold urlify, Urllib.quote.
  destruct (Urllib.utf8_encode (replace_space s)) as [bs|] eqn:E; [|done].
  intros [= <-].
  pose proof (replace_space_unicode s Hs) as Hs'.
  eapply Forall_impl; [apply quote_chars; by eapply utf8_encode_bytes|].
  intros c Hc. split; [done|by apply url_char_ascii].
Qed.

Lemma urlify_output_alphabet_witness :
  Forall (fun c => url_char c = true ∧ (32 < c < 127)%N)
    (str "Herrscher_of_Flamescion_%E2%98%85").
Proof.
  apply (urlify_output_alphabet (str "Herrscher of Flamescion " ++ [0x2605%N])).
  - forall_literal.
  - reflexivity.
Defined.

(** X7. A name made of unreserved characters, ['/'] and spaces is only
    normalised: [urlify] returns it with every space turned into an
    underscore, and nothing is percent-encoded. *)
Theorem urlify_safe_name (s : pystr) :
  Forall (fun c => Urllib.is_safe c = true ∨ c = 0x20%N) s →
  urlify s = Ok (replace_space s).
Proof.
  intros Hs. unfold urlify, Urllib.quote.
  assert (Forall (fun c => Urllib.is_safe c = true) (replace_space s)) as Hs'.
  { unfold replace_space. apply Forall_fmap.
    eapply Forall_impl; [exact Hs|].
    intros c [Hc| ->]; unfold compose; [|done].
    destruct (N.eqb_spec c 32); [done|done]. }
  clear Hs. induction Hs' as [|c t Hc _ IH]; [done|].
  simpl.
  assert (Urllib.utf8_encode_char c = Some [c]) as ->.
  { unfold Urllib.utf8_encode_char.
    destruct (N.ltb_spec c 128); [done|].
    assert (url_char c = true) as Hu by (unfold url_char; by rewrite Hc).
    apply url_char_ascii in Hu. lia. }
  destruct (Urllib.utf8_encode t) as [bs|]; [|done].
  simpl. unfold Urllib.quote_byte at 1. rewrite Hc.
  injection IH as <-. done.
Qed.

Lemma urlify_safe_name_witness :
  urlify (str "Augment Core") = Ok (str "Augment_Core").
Proof.
  apply (urlify_safe_name (str "Augment Core")).
  repeat (apply Forall_cons; split;
          [first [left; reflexivity|right; reflexivity]|]).
  apply Forall_nil_2.
Defined.

(** X8. The link builders raise exactly on surrogates: for a name without
    surrogate code points [urlify], [wiki_link], [image_link] and
    [discord_link] with its defaults all return; for a name with a surrogate
    they all raise [UnicodeEncodeError].  [discord_link] with an explicit
    link, or with [from_display=False], never encodes and never raises. *)
Theorem link_builders_raise_iff_surrogate (WIKI_BASE s : pystr) :
  (encodable s →
   ∃ u, urlify s = Ok u
        ∧ wiki_link WIKI_BASE s = Ok (WIKI_BASE ++ u)
        ∧ image_link WIKI_BASE s
          = Ok (WIKI_BASE ++ str "/Special:Redirect/file/" ++ u ++ str ".png")
        ∧ discord_link WIKI_BASE s None true
          = Ok (str "[" ++ s ++ str "](" ++ (WIKI_BASE ++ u) ++ str ")"))
  ∧ (¬ encodable s →
     urlify s = Raise UnicodeEncodeError
     ∧ wiki_link WIKI_BASE s = Raise UnicodeEncodeError
     ∧ image_link WIKI_BASE s = Raise UnicodeEncodeError
     ∧ discord_link WIKI_BASE s None true = Raise UnicodeEncodeError)
  ∧ (∀ link from_display,
       link ≠ None ∨ from_display = false →
       ∃ out, discord_link WIKI_BASE s link from_display = Ok out).
Proof.
  split; [|split].
  - intros Hs. destruct (urlify_encodable s Hs) as [u Hu]. exists u.
    split; [done|]. unfold wiki_link, image_link.
    rewrite (discord_link_page _ _ u) by done. by rewrite Hu.
  - intros Hs. pose proof (urlify_raises s Hs) as Hr.
    unfold discord_link, wiki_link, image_link. by rewrite Hr.
  - intros link fd Hcase. unfold discord_link.
    destruct link as [l|]; [by eexists|].
    destruct Hcase as [?| ->]; [done|by eexists].
Qed.

Lemma link_builders_raise_iff_surrogate_witness :
  (∃ u, urlify (str "Kiana") = Ok u
        ∧ wiki_link (str "B/") (str "Kiana") = Ok (str "B/" ++ u)
        ∧ image_link (str "B/") (str "Kiana")
          = Ok (str "B/" ++ str "/Special:Redirect/file/" ++ u ++ str ".png")
        ∧ discord_link (str "B/") (str "Kiana") None true
          = Ok (str "[" ++ str "Kiana" ++ str "]("
                  ++ (str "B/" ++ u) ++ str ")"))
  ∧ (urlify [0xD800%N] = Raise UnicodeEncodeError
     ∧ wiki_link (str "B/") [0xD800%N] = Raise UnicodeEncodeError
     ∧ image_link (str "B/") [0xD800%N] = Raise UnicodeEncodeError
     ∧ discord_link (str "B/") [0xD800%N] None true = Raise UnicodeEncodeError).
Proof.
  split.
  - apply (proj1 (link_builders_raise_iff_surrogate (str "B/") (str "Kiana"))).
    forall_literal.
  - apply (proj1 (proj2 (link_builders_raise_iff_surrogate (str "B/")
                           [0xD800%N]))).
    intros Henc. apply Forall_cons in Henc as [Hc _]. apply Hc. lia.
Defined.

(** ** Which names share a path segment *)

Lemma hex_digit_inj (d1 d2 : N) :
  (d1 < 16)%N → (d2 < 16)%N →
  Urllib.hex_digit d1 = Urllib.hex_digit d2 → d1 = d2.
Proof.
  unfold Urllib.hex_digit. intros H1 H2.
  destruct (N.ltb_spec d1 10), (N.ltb_spec d2 10); lia.
Qed.

Lemma quote_byte_prefix_free (b1 b2 : N) (r1 r2 : pystr) :
  (b1 < 256)%N → (b2 < 256)%N →
  Urllib.quote_byte b1 ++ r1 = Urllib.quote_byte b2 ++ r2 →
  b1 = b2 ∧ r1 = r2.
Proof.
  intros H1 H2. unfold Urllib.quote_byte, Urllib.percent.
  destruct (Urllib.is_safe b1) eqn:E1, (Urllib.is_safe b2) eqn:E2; simpl.
  - by intros [= -> ->].
  - intros [= -> _]. by vm_compute in E1.
  - intros [= <- _]. by vm_compute in E2.
  - intros [= Hhi Hlo ->]. split; [|done].
    apply hex_digit_inj in Hhi;
      [|apply N.Div0.div_lt_upper_bound; lia..].
    apply hex_digit_inj in Hlo; [|apply N.mod_lt; lia..].
    rewrite (N.div_mod b1 16), (N.div_mod b2 16) by lia. congruence.
Qed.

(** Percent-encoding is injective on bytes. *)
Lemma quote_bytes_inj (bs1 bs2 : list N) :
  Forall (fun b => (b < 256)%N) bs1 → Forall (fun b => (b < 256)%N) bs2 →
  concat (Urllib.quote_byte <$> bs1) = concat (Urllib.quote_byte <$> bs2) →
  bs1 = bs2.
Proof.
  intros H1. revert bs2. induction H1 as [|b1 bs1 Hb1 _ IH]; intros bs2 H2.
  - destruct H2 as [|b2 bs2 Hb2 _]; [done|]. simpl.
    unfold Urllib.quote_byte, Urllib.percent.
    by destruct (Urllib.is_safe b2).
  - destruct H2 as [|b2 bs2 Hb2 H2]; simpl.
    { unfold Urllib.quote_byte, Urllib.percent.
      by destruct (Urllib.is_safe b1). }
    intros Heq.
    apply quote_byte_prefix_free in Heq as [-> Heq]; [|done..].
    f_equal. by apply IH.
Qed.

(** X9. Two names get the same path segment exactly when they agree once
    their spaces are turned into underscores: apart from merging [' '] with
    ['_'], [urlify] is injective on Python strings. *)
Theorem urlify_collisions (s1 s2 u1 u2 : pystr) :
  unicode s1 → unicode s2 →
  urlify s1 = Ok u1 → urlify s2 = Ok u2 →
  (u1 = u2 ↔ replace_space s1 = replace_space s2).
Proof.
  intros Hs1 Hs2. unfold urlify, Urllib.quote.
  destruct (Urllib.utf8_encode (replace_space s1)) as [bs1|] eqn:E1; [|done].
  destruct (Urllib.utf8_encode (replace_space s2)) as [bs2|] eqn:E2; [|done].
  intros [= <-] [= <-]. split.
  - intros Heq.
    apply quote_bytes_inj in Heq;
      [|eapply utf8_encode_bytes; [|done]; by apply replace_space_unicode..].
    subst bs2.
    eapply utf8_encode_inj; [| |exact E1|exact E2];
      by apply replace_space_unicode.
  - intros Heq. rewrite Heq in E1. congruence.
Qed.

Lemma urlify_collisions_witness :
  str "Augment_Core" = str "Augment_Core"
  ↔ replace_space (str "Augment Core") = replace_space (str "Augment_Core").
Proof.
  apply (urlify_collisions (str "Augment Core") (str "Augment_Core")).
  - forall_literal.
  - forall_literal.
  - reflexivity.
  - reflexivity.
Defined.

(** * Length of an encoded name *)

Lemma utf8_encode_char_length (c : N) (bs : list N) :
  Urllib.utf8_encode_char c = Some bs → (1 ≤ length bs ≤ 4)%nat.
Proof.
  unfold Urllib.utf8_encode_char.
  repeat case_match; intros [= <-]; simpl; lia.
Qed.

Lemma utf8_encode_length (s : pystr) (bs : list N) :
  Urllib.utf8_encode s = Some bs →
  (length s ≤ length bs ≤ 4 * length s)%nat.
Proof.
  revert bs. induction s as [|c s IH]; intros bs.
  - intros [= <-]. simpl. lia.
  - intros (b & r & Hb & Hr & ->)%utf8_encode_cons.
    apply utf8_encode_char_length in Hb. apply IH in Hr.
    rewrite length_app. simpl. lia.
Qed.

Lemma quote_bytes_length (bs : list N) :
  (length bs ≤ length (concat (Urllib.quote_byte <$> bs)) ≤ 3 * length bs)%nat.
Proof.
  induction bs as [|b bs IH]; [simpl; lia|].
  rewrite fmap_cons. cbn [concat]. rewrite length_app. cbn [length].
  assert (1 ≤ length (Urllib.quote_byte b) ≤ 3)%nat
    by (unfold Urllib.quote_byte; destruct (Urllib.is_safe b); simpl; lia).
  lia.
Qed.

(** X10. The path segment is never shorter than the name and at most twelve
    times as long (four bytes per code point, three characters per byte);
    the empty name gives the empty segment. *)
Theorem urlify_length (s u : pystr) :
  urlify s = Ok u →
  (length s ≤ length u ≤ 12 * length s)%nat ∧ (s = [] ↔ u = []).
Proof.
  unfold urlify, Urllib.quote.
  destruct (Urllib.utf8_encode (replace_space s)) as [bs|] eqn:E; [|done].
  intros [= <-]. apply utf8_encode_length in E.
  unfold replace_space in E. rewrite length_fmap in E.
  pose proof (quote_bytes_length bs) as Hq.
  split; [lia|]. split.
  - intros ->. simpl in E. destruct bs; [done|simpl in E; lia].
  - intros Hu. rewrite Hu in Hq. simpl in Hq. destruct s; [done|simpl in E; lia].
Qed.

Lemma urlify_length_witness :
  (length [0x1F600%N] ≤ length (str "%F0%9F%98%80")
   ≤ 12 * length [0x1F600%N])%nat
  ∧ ([0x1F600%N] = [] ↔ str "%F0%9F%98%80" = []).
Proof. apply (urlify_length [0x1F600%N]). reflexivity. Defined.

(** * Further properties of [parse_wiki_str] *)

(** X11. An input in which the parser reports no construct at all is
    returned unchanged, whatever it contains. *)
Theorem parse_wiki_str_no_constructs (WIKI_BASE : pystr)
    (parse : pystr → WikiText) (s : pystr) :
  get_bolds_and_italics (parse s) = [] → get_tags (parse s) = [] →
  wikilinks (parse s) = [] → templates (parse s) = [] →
  parse_wiki_str WIKI_BASE parse s = Ok s.
Proof.
  intros Hem Htag Hwl Htpl. unfold parse_wiki_str, passes.
  rewrite Hem, Htag, Hwl, Htpl. simpl. by rewrite join_list_of_str.
Qed.

Lemma parse_wiki_str_no_constructs_witness :
  parse_wiki_str [] (fun _ => no_constructs) (str "Valkyrie rank S")
  = Ok (str "Valkyrie rank S").
Proof.
  apply (parse_wiki_str_no_constructs [] (fun _ => no_constructs));
    reflexivity.
Defined.

(** What a loop that returned says about each of its elements. *)
Lemma for_each_Ok_Forall {X S : Type} (body : S → X → result S)
    (xs : list X) (st st' : S) :
  for_each body xs st = Ok st' →
  Forall (fun x => ∃ st1 st2, body st1 x = Ok st2) xs.
Proof.
  revert st. induction xs as [|x xs IH]; intros st; [by constructor|].
  simpl. destruct (body st x) as [st1|] eqn:E; [|done].
  simpl. intros Hrun. constructor; [by eauto|by eapply IH].
Qed.

Lemma discord_link_default_Ok (WIKI_BASE d out : pystr) :
  discord_link WIKI_BASE d None true = Ok out → encodable d.
Proof.
  unfold discord_link, wiki_link. intros Hrun.
  apply urlify_Ok_iff. destruct (urlify d) as [u|]; [by eexists|done].
Qed.

(** X12. [parse_wiki_str] returns a string exactly when no pass meets what it
    cannot handle: every emphasis and every link without nested link comes
    with its match object, every tag with contents has a class attribute, and
    the target of every link without nested link and without text is free of
    surrogates.  In every other case the call raises. *)
Theorem parse_wiki_str_returns_iff (WIKI_BASE : pystr)
    (parse : pystr → WikiText) (s : pystr) :
  (∃ out, parse_wiki_str WIKI_BASE parse s = Ok out)
  ↔ well_reported (parse s).
Proof.
  split; [|apply parse_wiki_str_returns].
  intros [out Hrun]. unfold parse_wiki_str, passes in Hrun.
  destruct (for_each (em_body id) _ _) as [l1|] eqn:E1; [|done].
  simpl in Hrun.
  destruct (for_each (tag_body id) _ l1) as [l2|] eqn:E2; [|done].
  simpl in Hrun.
  destruct (for_each (wikilink_body WIKI_BASE id) _ l2) as [l3|] eqn:E3;
    [|done].
  clear Hrun.
  apply for_each_Ok_Forall in E1, E2, E3.
  split; [|split].
  - eapply Forall_impl; [exact E1|].
    intros em (st1 & st2 & Hb). unfold em_body in Hb.
    destruct (em_span em). by destruct (em_match em).
  - eapply Forall_impl; [exact E2|].
    intros tag (st1 & st2 & Hb) Hc. unfold tag_body in Hb.
    destruct (tag_span tag). destruct (tag_contents tag) as [ml mh].
    simpl in Hc. rewrite bool_decide_eq_true_2 in Hb by done.
    by destruct (tag_attrs tag !! str "class").
  - eapply Forall_impl; [exact E3|].
    intros wl (st1 & st2 & Hb) Hn. unfold wikilink_body in Hb.
    destruct (wl_span wl). rewrite Hn in Hb. simpl in Hb.
    destruct (wl_match wl) as [[ml mh]|]; [|done].
    exists ml, mh. split; [done|]. intros ->.
    rewrite bool_decide_eq_false_2 in Hb by (intros Hne; by apply Hne).
    destruct (discord_link WIKI_BASE (wl_target wl) None true) as [t|] eqn:E;
      [|done].
    by eapply discord_link_default_Ok.
Qed.

Lemma parse_wiki_str_returns_iff_witness :
  (∃ out, parse_wiki_str [] (fun _ => report_mixed)
            (str "<b class='inc'>''text''</b>") = Ok out)
  ∧ ¬ well_reported report_plain_b.
Proof.
  split.
  - apply (proj2 (parse_wiki_str_returns_iff [] (fun _ => report_mixed)
                    (str "<b class='inc'>''text''</b>"))).
    split; [|split]; repeat constructor; simpl; eauto.
  - intros Hw.
    apply (proj2 (parse_wiki_str_returns_iff [] (fun _ => report_plain_b)
                    (str "<b>x</b>"))) in Hw.
    destruct Hw as [out Hout]. discriminate Hout.
Defined.

(** The buffer after two writes with their own replacements. *)
Lemma two_writes_segments {A : Type} (lst : list (option A)) (L l h H : Z)
    (r1 r2 : option A) :
  0 ≤ L < l → l ≤ h → h < H → H ≤ Z.of_nat (length lst) →
  replace (replace lst L l r1) h H r2 =
    take (Z.to_nat L) lst
      ++ (r1 :: replicate (Z.to_nat (l - L - 1)) None)
      ++ take (Z.to_nat (h - l)) (drop (Z.to_nat l) lst)
      ++ (r2 :: replicate (Z.to_nat (H - h - 1)) None)
      ++ drop (Z.to_nat H) lst.
Proof.
  intros HL Hlh HhH HH.
  rewrite (replace_in_range _ h H) by (rewrite ?replace_length; lia).
  rewrite (replace_in_range lst L l) by lia.
  set (P := take (Z.to_nat L) lst).
  set (M := r1 :: replicate (Z.to_nat (l - L - 1)) None).
  assert (length P = Z.to_nat L) as HP
    by (unfold P; rewrite length_take; lia).
  assert (length M = Z.to_nat (l - L)) as HM
    by (unfold M; simpl; rewrite length_replicate; lia).
  rewrite take_app_ge, take_app_ge by lia.
  rewrite drop_app_ge, drop_app_ge, drop_drop by lia.
  rewrite HP, HM. rewrite <- !app_assoc.
  do 3 f_equal; [f_equal; lia|]. do 2 f_equal. lia.
Qed.

(** X13. A link with display text and without nested link loses its target:
    the region up to the text becomes ["<placeholder2>"], the closing
    brackets disappear, and the output keeps the text, as it stands in the
    buffer, between what precedes and what follows the link.  Neither the
    target nor [WIKI_BASE] takes part, and nothing is encoded. *)
Theorem link_with_text_drops_target (WIKI_BASE : pystr)
    (lst : list (option pystr)) (wl : WikiLink) (L H ml mh : Z) :
  wl_span wl = (L, H) → wl_wikilinks wl = [] → wl_match wl = Some (ml, mh) →
  0 ≤ L → 0 < ml → ml ≤ mh → L + mh < H → H ≤ Z.of_nat (length lst) →
  ∃ lst',
    wikilink_body WIKI_BASE id lst wl = Ok lst'
    ∧ join lst'
      = join (take (Z.to_nat L) lst)
          ++ str "<placeholder2>"
          ++ join (take (Z.to_nat (mh - ml)) (drop (Z.to_nat (L + ml)) lst))
          ++ join (drop (Z.to_nat H) lst).
Proof.
  intros Hs Hn Hm HL Hml Hmh HmhH HH. eexists. split.
  - unfold wikilink_body. rewrite Hs, Hn, Hm. simpl.
    rewrite bool_decide_eq_true_2 by lia. reflexivity.
  - rewrite two_writes_segments by lia.
    rewrite !join_app, join_cons_Some, join_cons_None,
      !join_replicate_None, app_nil_r.
    cbn [app]. do 3 f_equal. do 2 f_equal. lia.
Qed.

Lemma link_with_text_drops_target_witness :
  ∃ lst',
    wikilink_body [] id (list_of_str (str "[[Kiana|the captain]]")) wl_captain
      = Ok lst'
    ∧ join lst'
      = join (take (Z.to_nat 0) (list_of_str (str "[[Kiana|the captain]]")))
          ++ str "<placeholder2>"
          ++ join (take (Z.to_nat (19 - 8))
                     (drop (Z.to_nat (0 + 8))
                        (list_of_str (str "[[Kiana|the captain]]"))))
          ++ join (drop (Z.to_nat 21)
                     (list_of_str (str "[[Kiana|the captain]]"))).
Proof.
  apply (link_with_text_drops_target []
           (list_of_str (str "[[Kiana|the captain]]")) wl_captain 0 21 8 19);
    try reflexivity; simpl; lia.
Defined.

(** * Battlesuit descriptions *)

Lemma discord_link_default_raises (WIKI_BASE d : pystr) :
  ¬ encodable d →
  discord_link WIKI_BASE d None true = Raise UnicodeEncodeError.
Proof.
  intros Hd. unfold discord_link, wiki_link. by rewrite urlify_raises.
Qed.

(** X14. [battlesuit_description] returns exactly when the character name
    and, if the augment is truthy, the augment name are free of surrogates.
    Without a truthy augment the description is the character link followed
    by [" battlesuit."]; with one, a second line links ["Augment Core"] to
    [WIKI_BASE + "Augment_Core"] and the augment to its own page. *)
Theorem battlesuit_description_returns (WIKI_BASE : pystr) (b : Battlesuit) :
  ((∃ out, battlesuit_description WIKI_BASE b = Ok out)
   ↔ encodable (character b)
     ∧ (truthy_str (augment b) = true → encodable (default [] (augment b))))
  ∧ (∀ uc, urlify (character b) = Ok uc →
       truthy_str (augment b) = false →
       battlesuit_description WIKI_BASE b
       = Ok ((str "[" ++ character b ++ str "](" ++ (WIKI_BASE ++ uc) ++ str ")")
               ++ str " battlesuit." ++ []))
  ∧ (∀ uc a ua, urlify (character b) = Ok uc →
       augment b = Some a → a ≠ [] → urlify a = Ok ua →
       battlesuit_description WIKI_BASE b
       = Ok ((str "[" ++ character b ++ str "](" ++ (WIKI_BASE ++ uc) ++ str ")")
               ++ str " battlesuit."
               ++ [10%N]
               ++ (str "[" ++ str "Augment Core" ++ str "]("
                     ++ (WIKI_BASE ++ str "Augment_Core") ++ str ")")
               ++ str " upgrade of "
               ++ (str "[" ++ a ++ str "](" ++ (WIKI_BASE ++ ua) ++ str ")"))).
Proof.
  split; [|split].
  - unfold battlesuit_description. split.
    + intros [out Hrun].
      destruct (discord_link WIKI_BASE (character b) None true) as [h|] eqn:Eh;
        [|done].
      split; [by eapply discord_link_default_Ok|].
      intros Ht. rewrite Ht in Hrun. cbn [mbind result_bind] in Hrun.
      destruct (discord_link WIKI_BASE (str "Augment Core") None true)
        as [core|]; [|done].
      cbn [mbind result_bind] in Hrun.
      destruct (discord_link WIKI_BASE (default [] (augment b)) None true)
        as [aug|] eqn:Ea; [|done].
      by eapply discord_link_default_Ok.
    + intros [Hc Ha].
      destruct (urlify_encodable _ Hc) as [uc Huc].
      rewrite (discord_link_page WIKI_BASE (character b) uc Huc).
      cbn [mbind result_bind].
      destruct (truthy_str (augment b)); [|by eexists].
      rewrite (discord_link_page WIKI_BASE (str "Augment Core")
                 (str "Augment_Core") eq_refl).
      cbn [mbind result_bind].
      destruct (urlify_encodable _ (Ha eq_refl)) as [ua Hua].
      rewrite (discord_link_page WIKI_BASE _ ua Hua). by eexists.
  - intros uc Huc Ht. unfold battlesuit_description.
    rewrite (discord_link_page WIKI_BASE (character b) uc Huc). by rewrite Ht.
  - intros uc a ua Huc Ha Hne Hua. unfold battlesuit_description.
    rewrite (discord_link_page WIKI_BASE (character b) uc Huc). rewrite Ha.
    destruct a as [|c a']; [done|]. cbn [truthy_str default].
    cbn [mbind result_bind].
    rewrite (discord_link_page WIKI_BASE (str "Augment Core")
               (str "Augment_Core") eq_refl).
    cbn [mbind result_bind id].
    rewrite (discord_link_page WIKI_BASE (c :: a') ua Hua). reflexivity.
Qed.

Lemma battlesuit_description_returns_witness :
  battlesuit_description (str "B/")
    {| character := str "Kiana"; augment := None |}
  = Ok (str "[Kiana](B/Kiana) battlesuit.")
  ∧ battlesuit_description (str "B/")
      {| character := [0xD800%N]; augment := None |}
    = Raise UnicodeEncodeError.
Proof.
  split.
  - apply (proj1 (proj2 (battlesuit_description_returns (str "B/")
                           {| character := str "Kiana"; augment := None |}))
             (str "Kiana")); reflexivity.
  - destruct (battlesuit_description (str "B/")
                {| character := [0xD800%N]; augment := None |})
      as [out|e] eqn:E; [|by vm_compute in E; injection E as <-].
    exfalso.
    destruct (proj1 (proj1 (battlesuit_description_returns (str "B/")
                {| character := [0xD800%N]; augment := None |})))
      as [Henc _]; [by eexists|].
    apply Forall_cons in Henc as [Hc _]. apply Hc. simpl. lia.
Defined.

(** * Sequences of writes *)

Section Writes.

Context {A : Type}.
Implicit Types (lst : list (option A)) (ws : list (Z * Z * option A)).

Lemma apply_writes_app lst ws1 ws2 :
  apply_writes lst (ws1 ++ ws2) = apply_writes (apply_writes lst ws1) ws2.
Proof. unfold apply_writes. apply foldl_app. Qed.

Lemma apply_writes_length lst ws (n : nat) :
  Forall (region_ok (Z.of_nat n)) (fst <$> ws) → length lst = n →
  length (apply_writes lst ws) = n.
Proof.
  revert lst. induction ws as [|[[b e] repl] ws IH]; intros lst Hok Hn;
    [done|].
  apply Forall_cons in Hok as [(Hb & Hbe & He) Hok]. simpl in *.
  apply IH; [done|]. rewrite replace_length; lia.
Qed.

(** Writes that do not begin inside a span of tombstones leave it a span of
    tombstones. *)
Lemma apply_writes_tombstoned lst ws (n : nat) (span : Z * Z) :
  Forall (region_ok (Z.of_nat n)) (fst <$> ws) →
  Forall (fun r => ¬ starts_inside span r) (fst <$> ws) →
  length lst = n → tombstoned span lst →
  tombstoned span (apply_writes lst ws).
Proof.
  revert lst. induction ws as [|[[b e] repl] ws IH];
    intros lst Hok Hout Hn Hts; [done|].
  apply Forall_cons in Hok as [(Hb & Hbe & He) Hok].
  apply Forall_cons in Hout as [Hstart Hout]. simpl in *.
  apply IH; [done|done|rewrite replace_length; lia|].
  intros i Hi. rewrite replace_lookup by lia.
  unfold starts_inside, inside in *. simpl in *.
  case_decide; [lia|]. case_decide; [done|]. by apply Hts.
Qed.

(** Writes that do not meet a span leave its cells as they are. *)
Lemma apply_writes_untouched lst ws (n : nat) (span : Z * Z) (i : nat) :
  Forall (region_ok (Z.of_nat n)) (fst <$> ws) →
  Forall (fun r => ¬ meets span r) (fst <$> ws) →
  length lst = n → inside span i →
  apply_writes lst ws !! i = lst !! i.
Proof.
  revert lst. induction ws as [|[[b e] repl] ws IH];
    intros lst Hok Hout Hn Hi; [done|].
  apply Forall_cons in Hok as [(Hb & Hbe & He) Hok].
  apply Forall_cons in Hout as [Hmeet Hout]. simpl in *.
  rewrite IH; [|done|done|rewrite replace_length; lia|done].
  apply replace_lookup_outside; [lia|lia|].
  unfold meets, inside in *. simpl in *. lia.
Qed.

Lemma replace_holds_write lst (span : Z * Z) (repl : option A) :
  region_ok (Z.of_nat (length lst)) span →
  holds_write span repl (replace lst span.1 span.2 repl).
Proof.
  intros (Hb & Hbe & He) i Hi. unfold inside in Hi.
  rewrite replace_lookup by lia.
  case_decide; [done|]. by rewrite decide_True by lia.
Qed.

Lemma holds_write_None (span : Z * Z) lst :
  holds_write span None lst → tombstoned span lst.
Proof. intros Hw i Hi. rewrite (Hw i Hi). by case_decide. Qed.

(** What a write over a span leaves in the buffer once later writes have been
    applied. *)
Lemma write_then_writes lst ws (n : nat) (span : Z * Z) (repl : option A) :
  region_ok (Z.of_nat n) span → length lst = n →
  Forall (region_ok (Z.of_nat n)) (fst <$> ws) →
  (Forall (fun r => ¬ meets span r) (fst <$> ws) →
   holds_write span repl (apply_writes (replace lst span.1 span.2 repl) ws))
  ∧ (repl = None →
     Forall (fun r => ¬ starts_inside span r) (fst <$> ws) →
     tombstoned span (apply_writes (replace lst span.1 span.2 repl) ws)).
Proof.
  intros Hspan Hn Hok.
  assert (length (replace lst span.1 span.2 repl) = n) as Hlen
    by (destruct Hspan as (? & ? & ?); rewrite replace_length; lia).
  split.
  - intros Hout i Hi.
    rewrite (apply_writes_untouched _ ws n span i) by done.
    apply replace_holds_write; [by rewrite Hn|done].
  - intros -> Hout.
    apply (apply_writes_tombstoned _ ws n); [done|done|done|].
    apply holds_write_None, replace_holds_write. by rewrite Hn.
Qed.

(** ** The loop bodies as sequences of writes *)

Variable WIKI_BASE : pystr.
Variable tok : pystr → A.

Lemma em_body_writes lst lst' (em : BoldItalic) :
  em_body tok lst em = Ok lst' →
  ∃ ws, fst <$> ws = em_regions em ∧ lst' = apply_writes lst ws.
Proof.
  unfold em_body, em_regions. destruct (em_span em) as [L H].
  destruct (em_match em) as [[ml mh]|]; [|done]. intros [= <-].
  by eexists [(_, _, _); (_, _, _)].
Qed.

Lemma tag_body_writes lst lst' (tag : Tag) :
  tag_body tok lst tag = Ok lst' →
  ∃ ws, fst <$> ws = tag_regions tag ∧ lst' = apply_writes lst ws.
Proof.
  unfold tag_body, tag_regions. destruct (tag_span tag) as [L H].
  destruct (tag_contents tag) as [ml mh]. case_bool_decide.
  - destruct (tag_attrs tag !! str "class"); [|done]. intros [= <-].
    by eexists [(_, _, _); (_, _, _)].
  - intros [= <-]. by eexists [(_, _, _)].
Qed.

Lemma wikilink_body_writes lst lst' (wl : WikiLink) :
  wikilink_body WIKI_BASE tok lst wl = Ok lst' →
  ∃ ws, fst <$> ws = wikilink_regions wl ∧ lst' = apply_writes lst ws.
Proof.
  unfold wikilink_body, wikilink_regions. destruct (wl_span wl) as [L H].
  destruct (truthy (wl_wikilinks wl)).
  { intros [= <-]. by eexists [(_, _, _)]. }
  destruct (wl_match wl) as [[ml mh]|]; [|done]. case_bool_decide.
  - intros [= <-]. by eexists [(_, _, _); (_, _, _)].
  - destruct (discord_link WIKI_BASE (wl_target wl) None true); [|done].
    simpl. intros [= <-]. by eexists [(_, _, _)].
Qed.

Lemma template_body_writes lst lst' (tpl : Template) :
  template_body tok lst tpl = Ok lst' →
  ∃ ws, fst <$> ws = template_regions tpl ∧ lst' = apply_writes lst ws.
Proof.
  unfold template_body, template_regions. destruct (tpl_span tpl) as [L H].
  destruct (negb (truthy (tpl_templates tpl))); intros [= <-].
  - by eexists [(_, _, _)].
  - by exists [].
Qed.

Lemma for_each_writes {X : Type}
    (body : list (option A) → X → result (list (option A)))
    (rs : X → list (Z * Z)) (xs : list X) :
  (∀ lst lst' x, body lst x = Ok lst' →
     ∃ ws, fst <$> ws = rs x ∧ lst' = apply_writes lst ws) →
  ∀ lst lst', for_each body xs lst = Ok lst' →
    ∃ ws, fst <$> ws = flat_map rs xs ∧ lst' = apply_writes lst ws.
Proof.
  intros Hbody. induction xs as [|x xs IH]; intros lst lst' Hrun.
  - simpl in Hrun. injection Hrun as <-. by exists [].
  - simpl in Hrun. destruct (body lst x) as [l1|] eqn:E; [|done].
    simpl in Hrun.
    destruct (Hbody _ _ _ E) as (ws1 & Hr1 & ->).
    destruct (IH _ _ Hrun) as (ws2 & Hr2 & ->).
    exists (ws1 ++ ws2). split.
    + simpl. by rewrite fmap_app, Hr1, Hr2.
    + by rewrite apply_writes_app.
Qed.

(** A loop that returned, cut at one of its elements. *)
Lemma for_each_split {X S : Type} (body : S → X → result S)
    (pre post : list X) (x : X) (st st' : S) :
  for_each body (pre ++ x :: post) st = Ok st' →
  ∃ st1 st2, for_each body pre st = Ok st1 ∧ body st1 x = Ok st2
             ∧ for_each body post st2 = Ok st'.
Proof.
  rewrite for_each_app. destruct (for_each body pre st) as [st1|]; [|done].
  simpl. destruct (body st1 x) as [st2|] eqn:E; [|done]. simpl.
  intros Hpost. by exists st1, st2.
Qed.

End Writes.

(** * The passes seen from one construct *)

Section Positions.

Context {A : Type}.
Variable WIKI_BASE : pystr.
Variable tok : pystr → A.
Implicit Types (lst : list (option A)).

(** The state in which a template is handled, and the writes that follow. *)
Lemma passes_at_template (wt : WikiText) lst lst'
    (pre post : list Template) (tpl : Template) :
  templates wt = pre ++ tpl :: post →
  Forall (region_ok (Z.of_nat (length lst))) (regions wt) →
  passes WIKI_BASE tok wt lst = Ok lst' →
  ∃ l1 l2 ws,
    length l1 = length lst
    ∧ template_body tok l1 tpl = Ok l2
    ∧ Forall (region_ok (Z.of_nat (length lst))) (template_regions tpl)
    ∧ fst <$> ws = regions_after_template post
    ∧ Forall (region_ok (Z.of_nat (length lst))) (fst <$> ws)
    ∧ lst' = apply_writes l2 ws.
Proof.
  intros Hsplit Hok. unfold regions in Hok. rewrite Hsplit in Hok.
  apply Forall_app in Hok as [Hem Hok]. apply Forall_app in Hok as [Htag Hok].
  apply Forall_app in Hok as [Hwl Htpl].
  rewrite flat_map_app in Htpl. simpl in Htpl.
  apply Forall_app in Htpl as [Hpre Htpl].
  apply Forall_app in Htpl as [Hx Hpost].
  unfold passes. rewrite Hsplit.
  destruct (for_each (em_body tok) _ lst) as [a1|] eqn:E1; [|done]. simpl.
  destruct (for_each (tag_body tok) _ a1) as [a2|] eqn:E2; [|done]. simpl.
  destruct (for_each (wikilink_body WIKI_BASE tok) _ a2) as [a3|] eqn:E3;
    [|done].
  simpl. intros E4.
  eapply (for_each_frame _ em_regions) in E1 as [H1 _];
    [|apply em_body_frame|exact Hem|done].
  eapply (for_each_frame _ tag_regions) in E2 as [H2 _];
    [|apply tag_body_frame|exact Htag|done].
  eapply (for_each_frame _ wikilink_regions) in E3 as [H3 _];
    [|apply wikilink_body_frame|exact Hwl|done].
  apply for_each_split in E4 as (l1 & l2 & Epre & Ex & Epost).
  eapply (for_each_frame _ template_regions) in Epre as [Hl1 _];
    [|apply template_body_frame|exact Hpre|done].
  apply (for_each_writes _ template_regions) in Epost as (ws & Hws & ->);
    [|apply template_body_writes].
  exists l1, l2, ws. unfold regions_after_template. rewrite Hws.
  done.
Qed.

Lemma passes_at_wikilink (wt : WikiText) lst lst'
    (pre post : list WikiLink) (wl : WikiLink) :
  wikilinks wt = pre ++ wl :: post →
  Forall (region_ok (Z.of_nat (length lst))) (regions wt) →
  passes WIKI_BASE tok wt lst = Ok lst' →
  ∃ l1 l2 ws,
    length l1 = length lst
    ∧ wikilink_body WIKI_BASE tok l1 wl = Ok l2
    ∧ Forall (region_ok (Z.of_nat (length lst))) (wikilink_regions wl)
    ∧ fst <$> ws = regions_after_wikilink wt post
    ∧ Forall (region_ok (Z.of_nat (length lst))) (fst <$> ws)
    ∧ lst' = apply_writes l2 ws.
Proof.
  intros Hsplit Hok. unfold regions in Hok. rewrite Hsplit in Hok.
  apply Forall_app in Hok as [Hem Hok]. apply Forall_app in Hok as [Htag Hok].
  apply Forall_app in Hok as [Hwl Htpl].
  rewrite flat_map_app in Hwl. simpl in Hwl.
  apply Forall_app in Hwl as [Hpre Hwl].
  apply Forall_app in Hwl as [Hx Hpost].
  unfold passes. rewrite Hsplit.
  destruct (for_each (em_body tok) _ lst) as [a1|] eqn:E1; [|done]. simpl.
  destruct (for_each (tag_body tok) _ a1) as [a2|] eqn:E2; [|done]. simpl.
  destruct (for_each (wikilink_body WIKI_BASE tok) _ a2) as [a3|] eqn:E3;
    [|done].
  simpl. intros E4.
  eapply (for_each_frame _ em_regions) in E1 as [H1 _];
    [|apply em_body_frame|exact Hem|done].
  eapply (for_each_frame _ tag_regions) in E2 as [H2 _];
    [|apply tag_body_frame|exact Htag|done].
  apply for_each_split in E3 as (l1 & l2 & Epre & Ex & Epost).
  eapply (for_each_frame _ wikilink_regions) in Epre as [Hl1 _];
    [|apply wikilink_body_frame|exact Hpre|done].
  apply (for_each_writes _ wikilink_regions) in Epost
    as (ws1 & Hws1 & ->); [|apply wikilink_body_writes].
  apply (for_each_writes _ template_regions) in E4
    as (ws2 & Hws2 & ->); [|apply template_body_writes].
  exists l1, l2, (ws1 ++ ws2). unfold regions_after_wikilink.
  rewrite fmap_app, Hws1, Hws2, apply_writes_app.
  split; [done|]. split; [done|]. split; [done|]. split; [done|].
  split; [|done]. apply Forall_app. done.
Qed.

Lemma passes_at_tag (wt : WikiText) lst lst'
    (pre post : list Tag) (tag : Tag) :
  get_tags wt = pre ++ tag :: post →
  Forall (region_ok (Z.of_nat (length lst))) (regions wt) →
  passes WIKI_BASE tok wt lst = Ok lst' →
  ∃ l1 l2 ws,
    length l1 = length lst
    ∧ tag_body tok l1 tag = Ok l2
    ∧ Forall (region_ok (Z.of_nat (length lst))) (tag_regions tag)
    ∧ fst <$> ws = regions_after_tag wt post
    ∧ Forall (region_ok (Z.of_nat (length lst))) (fst <$> ws)
    ∧ lst' = apply_writes l2 ws.
Proof.
  intros Hsplit Hok. unfold regions in Hok. rewrite Hsplit in Hok.
  apply Forall_app in Hok as [Hem Hok]. apply Forall_app in Hok as [Htag Hok].
  apply Forall_app in Hok as [Hwl Htpl].
  rewrite flat_map_app in Htag. simpl in Htag.
  apply Forall_app in Htag as [Hpre Htag].
  apply Forall_app in Htag as [Hx Hpost].
  unfold passes. rewrite Hsplit.
  destruct (for_each (em_body tok) _ lst) as [a1|] eqn:E1; [|done]. simpl.
  destruct (for_each (tag_body tok) _ a1) as [a2|] eqn:E2; [|done]. simpl.
  destruct (for_each (wikilink_body WIKI_BASE tok) _ a2) as [a3|] eqn:E3;
    [|done].
  simpl. intros E4.
  eapply (for_each_frame _ em_regions) in E1 as [H1 _];
    [|apply em_body_frame|exact Hem|done].
  apply for_each_split in E2 as (l1 & l2 & Epre & Ex & Epost).
  eapply (for_each_frame _ tag_regions) in Epre as [Hl1 _];
    [|apply tag_body_frame|exact Hpre|done].
  apply (for_each_writes _ tag_regions) in Epost
    as (ws1 & Hws1 & ->); [|apply tag_body_writes].
  apply (for_each_writes _ wikilink_regions) in E3
    as (ws2 & Hws2 & ->); [|apply wikilink_body_writes].
  apply (for_each_writes _ template_regions) in E4
    as (ws3 & Hws3 & ->); [|apply template_body_writes].
  exists l1, l2, (ws1 ++ ws2 ++ ws3). unfold regions_after_tag.
  rewrite !fmap_app, Hws1, Hws2, Hws3, !apply_writes_app.
  split; [done|]. split; [done|]. split; [done|]. split; [done|].
  split; [|done]. rewrite !Forall_app. done.
Qed.

(** A template that contains a template takes no part in the passes. *)
Lemma nested_template_not_written (wt : WikiText) lst
    (pre post : list Template) (tpl : Template) :
  templates wt = pre ++ tpl :: post → tpl_templates tpl ≠ [] →
  passes WIKI_BASE tok wt lst
  = passes WIKI_BASE tok (with_templates wt (pre ++ post)) lst.
Proof.
  intros Hsplit Hn. unfold passes, with_templates. simpl. rewrite Hsplit.
  destruct (for_each (em_body tok) _ lst) as [a1|]; [|done]. simpl.
  destruct (for_each (tag_body tok) _ a1) as [a2|]; [|done]. simpl.
  destruct (for_each (wikilink_body WIKI_BASE tok) _ a2) as [a3|]; [|done].
  simpl. rewrite !for_each_app.
  destruct (for_each (template_body tok) pre a3) as [a4|]; [|done]. simpl.
  assert (template_body tok a4 tpl = Ok a4) as ->; [|done].
  unfold template_body. destruct (tpl_span tpl) as [L H].
  by destruct (tpl_templates tpl).
Qed.

End Positions.

(** * Rendering a buffer around a span *)

Lemma rendering_app (a b : list (option cell)) :
  rendering (a ++ b) = rendering a ++ rendering b.
Proof. unfold rendering. by rewrite omap_app, fmap_app, concat_app. Qed.

Lemma rendering_replicate_None (k : nat) : rendering (replicate k None) = [].
Proof. induction k as [|k IH]; [done|]. exact IH. Qed.

(** A buffer cut at the two ends of a span. *)
Lemma buffer_cut {X : Type} (buf : list X) (L H : Z) :
  0 ≤ L → L ≤ H →
  buf = take (Z.to_nat L) buf
          ++ take (Z.to_nat (H - L)) (drop (Z.to_nat L) buf)
          ++ drop (Z.to_nat H) buf.
Proof.
  intros HL HLH.
  replace (Z.to_nat H) with (Z.to_nat L + Z.to_nat (H - L))%nat by lia.
  by rewrite <- drop_drop, !take_drop.
Qed.

(** A span of tombstones adds nothing to the output. *)
Lemma rendering_tombstoned (buf : list (option cell)) (L H : Z) :
  0 ≤ L → L ≤ H → H ≤ Z.of_nat (length buf) →
  tombstoned (L, H) buf →
  rendering buf
  = rendering (take (Z.to_nat L) buf) ++ rendering (drop (Z.to_nat H) buf).
Proof.
  intros HL HLH HH Hts.
  rewrite (buffer_cut buf L H) at 1 by lia.
  rewrite !rendering_app. f_equal.
  assert (take (Z.to_nat (H - L)) (drop (Z.to_nat L) buf)
          = replicate (Z.to_nat (H - L)) None) as ->.
  { apply list_eq. intros j.
    destruct (decide (j < Z.to_nat (H - L))%nat) as [Hj|Hj].
    - rewrite lookup_take_lt, lookup_drop, lookup_replicate_2 by lia.
      apply Hts. unfold inside. simpl. lia.
    - rewrite lookup_take_ge by lia. symmetry.
      apply lookup_replicate_None. lia. }
  by rewrite rendering_replicate_None.
Qed.

(** A span that holds one write of a token adds the token to the output. *)
Lemma rendering_holds_write (buf : list (option cell)) (L H : Z) (t : pystr) :
  0 ≤ L → L < H → H ≤ Z.of_nat (length buf) →
  holds_write (L, H) (Some (Token t)) buf →
  rendering buf
  = rendering (take (Z.to_nat L) buf) ++ t
      ++ rendering (drop (Z.to_nat H) buf).
Proof.
  intros HL HLH HH Hw.
  rewrite (buffer_cut buf L H) at 1 by lia.
  rewrite !rendering_app. do 2 f_equal.
  assert (take (Z.to_nat (H - L)) (drop (Z.to_nat L) buf)
          = Some (Token t) :: replicate (Z.to_nat (H - L - 1)) None) as ->.
  { apply list_eq. intros j.
    destruct (decide (j < Z.to_nat (H - L))%nat) as [Hj|Hj].
    - rewrite lookup_take_lt, lookup_drop by lia.
      rewrite Hw by (unfold inside; simpl; lia). simpl.
      destruct j as [|j]; simpl.
      + by rewrite decide_True by lia.
      + rewrite decide_False by lia. symmetry.
        apply lookup_replicate_2. lia.
    - rewrite lookup_take_ge by lia. symmetry.
      destruct j as [|j]; [lia|]. simpl.
      apply lookup_replicate_None. lia. }
  change (rendering (Some (Token t) :: ?l)) with (t ++ rendering l).
  by rewrite rendering_replicate_None, app_nil_r.
Qed.

(** * What a construct leaves in the final buffer *)

Section Outcomes.

Context {A : Type}.
Variable WIKI_BASE : pystr.
Variable tok : pystr → A.
Implicit Types (lst buf : list (option A)).

(** A self-closing tag: one write over its span, then the later writes. *)
Lemma self_closing_tag_outcome (wt : WikiText) lst buf
    (pre post : list Tag) (tag : Tag) :
  Forall (region_ok (Z.of_nat (length lst))) (regions wt) →
  passes WIKI_BASE tok wt lst = Ok buf →
  get_tags wt = pre ++ tag :: post → (tag_contents tag).1 = -1 →
  (Forall (fun r => ¬ meets (tag_span tag) r) (regions_after_tag wt post) →
   holds_write (tag_span tag) (tok <$> TAG_MAPPING !! tag_name tag) buf)
  ∧ (TAG_MAPPING !! tag_name tag = None →
     Forall (fun r => ¬ starts_inside (tag_span tag) r)
       (regions_after_tag wt post) →
     tombstoned (tag_span tag) buf).
Proof.
  intros Hok Hrun Hsplit Hc.
  destruct (passes_at_tag WIKI_BASE tok wt lst buf pre post tag Hsplit Hok Hrun)
    as (l1 & l2 & ws & Hl1 & Hbody & Hreg & Hws & Hwsok & ->).
  destruct (tag_span tag) as [L H] eqn:Hs.
  rewrite (tag_body_self_closing tok l1 tag L H Hs Hc) in Hbody.
  injection Hbody as <-.
  assert (region_ok (Z.of_nat (length lst)) (L, H)) as Hspan.
  { unfold tag_regions in Hreg. rewrite Hs in Hreg.
    destruct (tag_contents tag) as [ml mh]. simpl in Hc. subst ml.
    rewrite bool_decide_eq_false_2 in Hreg by (intros Hne; by apply Hne).
    by apply Forall_cons in Hreg as [Hreg _]. }
  destruct (write_then_writes l1 ws (length lst) (L, H)
              (tok <$> TAG_MAPPING !! tag_name tag) Hspan Hl1 Hwsok)
    as [Hhold Htomb].
  rewrite Hws in Hhold, Htomb. split; [done|].
  intros Hmiss. apply Htomb. by rewrite Hmiss.
Qed.

(** A template without nested template: one write over its span. *)
Lemma template_outcome (wt : WikiText) lst buf
    (pre post : list Template) (tpl : Template) :
  Forall (region_ok (Z.of_nat (length lst))) (regions wt) →
  passes WIKI_BASE tok wt lst = Ok buf →
  templates wt = pre ++ tpl :: post → tpl_templates tpl = [] →
  (Forall (fun r => ¬ meets (tpl_span tpl) r) (regions_after_template post) →
   holds_write (tpl_span tpl) (tok <$> TEMPLATE_MAPPING !! tpl_name tpl) buf)
  ∧ (TEMPLATE_MAPPING !! tpl_name tpl = None →
     Forall (fun r => ¬ starts_inside (tpl_span tpl) r)
       (regions_after_template post) →
     tombstoned (tpl_span tpl) buf).
Proof.
  intros Hok Hrun Hsplit Hn.
  destruct (passes_at_template WIKI_BASE tok wt lst buf pre post tpl
              Hsplit Hok Hrun)
    as (l1 & l2 & ws & Hl1 & Hbody & Hreg & Hws & Hwsok & ->).
  unfold template_body, template_regions in Hbody, Hreg.
  destruct (tpl_span tpl) as [L H] eqn:Hs. rewrite Hn in Hbody, Hreg.
  simpl in Hbody, Hreg. injection Hbody as <-.
  apply Forall_cons in Hreg as [Hspan _].
  destruct (write_then_writes l1 ws (length lst) (L, H)
              (tok <$> TEMPLATE_MAPPING !! tpl_name tpl) Hspan Hl1 Hwsok)
    as [Hhold Htomb].
  rewrite Hws in Hhold, Htomb. split; [done|].
  intros Hmiss. apply Htomb. by rewrite Hmiss.
Qed.

(** A link without nested link and without text: one write of the hyperlink
    over its span. *)
Lemma plain_link_outcome (wt : WikiText) lst buf
    (pre post : list WikiLink) (wl : WikiLink) (mh : Z) (u : pystr) :
  Forall (region_ok (Z.of_nat (length lst))) (regions wt) →
  passes WIKI_BASE tok wt lst = Ok buf →
  wikilinks wt = pre ++ wl :: post →
  wl_wikilinks wl = [] → wl_match wl = Some (-1, mh) →
  urlify (wl_target wl) = Ok u →
  Forall (fun r => ¬ meets (wl_span wl) r) (regions_after_wikilink wt post) →
  holds_write (wl_span wl)
    (Some (tok (str "[" ++ wl_target wl ++ str "]("
                  ++ (WIKI_BASE ++ u) ++ str ")"))) buf.
Proof.
  intros Hok Hrun Hsplit Hn Hm Hu Hlater.
  destruct (passes_at_wikilink WIKI_BASE tok wt lst buf pre post wl
              Hsplit Hok Hrun)
    as (l1 & l2 & ws & Hl1 & Hbody & Hreg & Hws & Hwsok & ->).
  unfold wikilink_body, wikilink_regions in Hbody, Hreg.
  destruct (wl_span wl) as [L H] eqn:Hs. rewrite Hn, Hm in Hbody, Hreg.
  cbn [truthy] in Hbody, Hreg.
  rewrite (bool_decide_eq_false_2 (-1 ≠ -1)) in Hbody, Hreg
    by (intros Hne; by apply Hne).
  rewrite (discord_link_page WIKI_BASE _ u Hu) in Hbody.
  cbn [mbind result_bind] in Hbody. injection Hbody as <-.
  apply Forall_cons in Hreg as [Hspan _].
  rewrite <- Hws in Hlater.
  by apply (write_then_writes l1 ws (length lst) (L, H)).
Qed.

(** A tag with contents and a class attribute: its two delimiter regions. *)
Lemma class_tag_outcome (wt : WikiText) lst buf
    (pre post : list Tag) (tag : Tag) (cls : pystr) :
  Forall (region_ok (Z.of_nat (length lst))) (regions wt) →
  passes WIKI_BASE tok wt lst = Ok buf →
  get_tags wt = pre ++ tag :: post →
  (tag_contents tag).1 ≠ -1 → (tag_contents tag).1 ≤ (tag_contents tag).2 →
  tag_attrs tag !! str "class" = Some cls → TAG_MAPPING !! cls = None →
  let opening := ((tag_span tag).1, (tag_span tag).1 + (tag_contents tag).1) in
  let closing := ((tag_span tag).1 + (tag_contents tag).2, (tag_span tag).2) in
  Forall (fun r => ¬ starts_inside opening r ∧ ¬ starts_inside closing r)
    (regions_after_tag wt post) →
  tombstoned opening buf ∧ tombstoned closing buf.
Proof.
  intros Hok Hrun Hsplit Hc Hle Hcls Hmiss opening closing Hlater.
  destruct (passes_at_tag WIKI_BASE tok wt lst buf pre post tag Hsplit Hok Hrun)
    as (l1 & l2 & ws & Hl1 & Hbody & Hreg & Hws & Hwsok & ->).
  unfold opening, closing in *. clear opening closing.
  destruct (tag_span tag) as [L H] eqn:Hs.
  destruct (tag_contents tag) as [ml mh] eqn:Hcon. simpl in *.
  rewrite (tag_body_boundary tok l1 tag L H ml mh cls Hs Hcon Hc Hcls)
    in Hbody.
  rewrite Hmiss in Hbody. simpl in Hbody. injection Hbody as <-.
  unfold tag_regions in Hreg. rewrite Hs, Hcon in Hreg.
  rewrite bool_decide_eq_true_2 in Hreg by done.
  apply Forall_cons in Hreg as [Hopen Hreg].
  apply Forall_cons in Hreg as [Hclose _].
  rewrite <- Hws in Hlater.
  split.
  - apply (write_then_writes l1 ((L + mh, H, None) :: ws) (length lst)
             (L, L + ml) None); [done|done| |done|].
    + simpl. by constructor.
    + simpl. constructor.
      * unfold starts_inside. simpl. lia.
      * eapply Forall_impl; [exact Hlater|]. by intros r [? ?].
  - assert (length (replace l1 L (L + ml) None) = length lst) as Hlen.
    { destruct Hopen as (? & ? & ?). simpl in *.
      rewrite replace_length; lia. }
    apply (write_then_writes (replace l1 L (L + ml) None) ws (length lst)
             (L + mh, H) None); [done|done|done|done|].
    eapply Forall_impl; [exact Hlater|]. by intros r [? ?].
Qed.

End Outcomes.

(** The labelled buffer behind a returned output, when every written region
    is non-empty and inside the input: it has one cell per input offset, and
    the cells outside the written regions hold the input characters. *)
Lemma behind_aligned (WIKI_BASE : pystr) (parse : pystr → WikiText)
    (s out : pystr) :
  Forall (region_ok (Z.of_nat (length s))) (regions (parse s)) →
  parse_wiki_str WIKI_BASE parse s = Ok out →
  ∃ buf : list (option cell),
    behind WIKI_BASE (parse s) s out buf
    ∧ ∀ (i : nat) (c : N),
        s !! i = Some c →
        ¬ Exists (fun r => inside r i) (regions (parse s)) →
        buf !! i = Some (Some (Orig i c)).
Proof.
  intros Hok Hrun.
  destruct (parse_wiki_str_labelled _ _ _ _ Hrun) as (buf & Hbuf & Hout).
  assert (length (seed s) = length s) as Hseed
    by (unfold seed; apply length_imap).
  destruct (passes_frame WIKI_BASE Token (parse s) (seed s) buf)
    as [Hlen Hframe]; [by rewrite Hseed|done|].
  exists buf. split; [split; [done|split; [congruence|done]]|].
  intros i c Hi Hcov. rewrite Hframe by done.
  unfold seed. rewrite list_lookup_imap, Hi. done.
Qed.

Lemma length_seed (s : pystr) : length (seed s) = length s.
Proof. unfold seed. apply length_imap. Qed.

(** Leaving a template that contains a template out of the report does not
    change what [parse_wiki_str] returns. *)
Lemma parse_wiki_str_without_nested (WIKI_BASE : pystr)
    (parse : pystr → WikiText) (s : pystr) (pre post : list Template)
    (tpl : Template) :
  templates (parse s) = pre ++ tpl :: post → tpl_templates tpl ≠ [] →
  parse_wiki_str WIKI_BASE (fun _ => with_templates (parse s) (pre ++ post)) s
  = parse_wiki_str WIKI_BASE parse s.
Proof.
  intros Hsplit Hn. unfold parse_wiki_str.
  by rewrite (nested_template_not_written WIKI_BASE id (parse s) _ pre post tpl).
Qed.

(** * Templates, links and unmapped identifiers in the output *)

(** A non-empty region that begins inside a span meets it. *)
Lemma not_meets_not_starts (n : Z) (span : Z * Z) (rs : list (Z * Z)) :
  Forall (region_ok n) rs →
  Forall (fun r => ¬ meets span r) rs →
  Forall (fun r => ¬ starts_inside span r) rs.
Proof.
  intros Hok Hmeet. induction Hok as [|r rs (Hb & Hbe & He) _ IH];
    [constructor|].
  apply Forall_cons in Hmeet as [Hr Hmeet]. constructor; [|by apply IH].
  intros Hin. apply Hr. unfold meets, starts_inside in *. lia.
Qed.

(** A template that holds a template, when the buffer is aligned with the
    input: leaving it out of the report does not change the output, and a
    nested template without further nesting, whose span no later write
    meets, shows in the output as its mapped token (or as nothing when its
    name is unmapped) between what precedes and what follows its span. *)
Lemma nested_template_aligned (WIKI_BASE : pystr) (parse : pystr → WikiText)
    (s out : pystr) :
  Forall (region_ok (Z.of_nat (length s))) (regions (parse s)) →
  parse_wiki_str WIKI_BASE parse s = Ok out →
  ∃ buf : list (option cell),
    behind WIKI_BASE (parse s) s out buf
    ∧ (∀ pre tpl post,
         templates (parse s) = pre ++ tpl :: post → tpl_templates tpl ≠ [] →
         parse_wiki_str WIKI_BASE
           (fun _ => with_templates (parse s) (pre ++ post)) s = Ok out)
    ∧ (∀ pre tpl post L H,
         templates (parse s) = pre ++ tpl :: post → tpl_templates tpl = [] →
         tpl_span tpl = (L, H) →
         Forall (fun r => ¬ meets (L, H) r) (regions_after_template post) →
         out = rendering (take (Z.to_nat L) buf)
                 ++ default [] (TEMPLATE_MAPPING !! tpl_name tpl)
                 ++ rendering (drop (Z.to_nat H) buf)).
Proof.
  intros Hok Hrun.
  destruct (behind_aligned _ _ _ _ Hok Hrun) as (buf & Hb & _).
  exists buf. split; [done|]. destruct Hb as (Hbuf & Hlen & Hout).
  rewrite <- (length_seed s) in Hok. split.
  - intros pre tpl post Hsplit Hn.
    by rewrite (parse_wiki_str_without_nested _ _ _ pre post tpl).
  - intros pre tpl post L H Hsplit Hn Hs Hlater.
    assert (region_ok (Z.of_nat (length s)) (L, H)) as (HL & HLH & HH).
    { destruct (passes_at_template WIKI_BASE Token (parse s) (seed s) buf
                  pre post tpl Hsplit Hok Hbuf)
        as (_ & _ & _ & _ & _ & Hreg & _).
      unfold template_regions in Hreg. rewrite Hs, Hn in Hreg.
      apply Forall_cons in Hreg as [Hreg _]. by rewrite length_seed in Hreg. }
    simpl in HL, HLH, HH.
    destruct (template_outcome WIKI_BASE Token (parse s) (seed s) buf
                pre post tpl Hok Hbuf Hsplit Hn) as [Hhold Htomb].
    rewrite Hs in Hhold, Htomb. rewrite Hout.
    destruct (TEMPLATE_MAPPING !! tpl_name tpl) as [t|] eqn:E.
    + apply rendering_holds_write; [lia|lia|lia|]. by apply Hhold.
    + apply rendering_tombstoned; [lia|lia|lia|]. apply Htomb; [done|].
      apply (not_meets_not_starts (Z.of_nat (length s))); [|done].
      destruct (passes_at_template WIKI_BASE Token (parse s) (seed s) buf
                  pre post tpl Hsplit Hok Hbuf)
        as (_ & _ & ws & _ & _ & _ & Hws & Hwsok & _).
      by rewrite <- Hws, <- (length_seed s).
Qed.

(** A link without nested link and without display text, when the buffer is
    aligned with the input and no later write meets its span: the output is
    what precedes the span, then ["[target](url)"] with [url] the base
    followed by [urlify(target)], then what follows the span. *)
Lemma plain_link_aligned (WIKI_BASE : pystr) (parse : pystr → WikiText)
    (s out : pystr) (pre post : list WikiLink) (wl : WikiLink)
    (L H mh : Z) (u : pystr) :
  Forall (region_ok (Z.of_nat (length s))) (regions (parse s)) →
  parse_wiki_str WIKI_BASE parse s = Ok out →
  wikilinks (parse s) = pre ++ wl :: post → wl_span wl = (L, H) →
  wl_wikilinks wl = [] → wl_match wl = Some (-1, mh) →
  urlify (wl_target wl) = Ok u →
  Forall (fun r => ¬ meets (L, H) r) (regions_after_wikilink (parse s) post) →
  ∃ buf : list (option cell),
    behind WIKI_BASE (parse s) s out buf
    ∧ out = rendering (take (Z.to_nat L) buf)
              ++ (str "[" ++ wl_target wl ++ str "]("
                    ++ (WIKI_BASE ++ u) ++ str ")")
              ++ rendering (drop (Z.to_nat H) buf).
Proof.
  intros Hok Hrun Hsplit Hs Hn Hm Hu Hlater.
  destruct (behind_aligned _ _ _ _ Hok Hrun) as (buf & Hb & _).
  exists buf. split; [done|]. destruct Hb as (Hbuf & Hlen & Hout).
  rewrite <- (length_seed s) in Hok.
  assert (region_ok (Z.of_nat (length s)) (L, H)) as (HL & HLH & HH).
  { destruct (passes_at_wikilink WIKI_BASE Token (parse s) (seed s) buf
                pre post wl Hsplit Hok Hbuf)
      as (_ & _ & _ & _ & _ & Hreg & _).
    unfold wikilink_regions in Hreg. rewrite Hs, Hn, Hm in Hreg.
    cbn [truthy] in Hreg.
    rewrite (bool_decide_eq_false_2 (-1 ≠ -1)) in Hreg
      by (intros Hne; by apply Hne).
    apply Forall_cons in Hreg as [Hreg _]. by rewrite length_seed in Hreg. }
  simpl in HL, HLH, HH. rewrite Hout.
  apply rendering_holds_write; [lia|lia|lia|].
  rewrite <- Hs.
  apply (plain_link_outcome WIKI_BASE Token (parse s) (seed s) buf pre post
           wl mh u); try done.
  by rewrite Hs.
Qed.

Example star_link_example (WIKI_BASE : pystr) :
  parse_wiki_str WIKI_BASE (fun _ => report_star_link)
    (str "[[" ++ star_page ++ str "]]")
  = Ok ((str "[" ++ star_page ++ str "]("
           ++ (WIKI_BASE ++ str "Star_%E2%98%85") ++ str ")") ++ []).
Proof. vm_compute. reflexivity. Qed.

(** C3. The output does not always keep the delimiters of a template that
    holds a template, nor replace the nested template alone: on the two
    lines [''a] and [{{outer|{{star}}}}], where the Italic of the first line
    has an empty closing region, the write over that region inserts a cell,
    the write for [{{star}}] then lands one cell to the left, and the output
    is ["_a_"], newline, ["{{outer★}}}"]: the ["|"] of ["{{outer|"] is gone
    and a brace of ["{{star}}"] is left. *)
Theorem nested_template_after_open_italic (WIKI_BASE : pystr) :
  parse_wiki_str WIKI_BASE (fun _ => report_italic_then_templates)
    italic_then_templates
  = Ok (str "_a_" ++ [10%N] ++ str "{{outer" ++ [0x2605%N] ++ str "}}}").
Proof. vm_compute. reflexivity. Qed.

(** C8. The span of a link without display text is not always replaced by
    the hyperlink: on the two lines [''a] and [[[Kiana]]], after the cell
    inserted for the empty closing region of the Italic, the write for the
    link lands one cell to the left; the output is
    ["_a_[Kiana](" + WIKI_BASE + "Kiana)]"], without the newline and with the
    last bracket of the link left over.  The same happens with the target
    ["Star ★"], whose URL part is ["Star_%E2%98%85"]. *)
Theorem plain_link_after_open_italic (WIKI_BASE : pystr) :
  parse_wiki_str WIKI_BASE (fun _ => report_italic_then_link) italic_then_link
  = Ok (str "_a_"
          ++ (str "[Kiana](" ++ (WIKI_BASE ++ str "Kiana") ++ str ")")
          ++ str "]")
  ∧ parse_wiki_str WIKI_BASE (fun _ => report_italic_then_star_link)
      italic_then_star_link
    = Ok (str "_a_"
            ++ (str "[" ++ star_page ++ str "]("
                  ++ (WIKI_BASE ++ str "Star_%E2%98%85") ++ str ")")
            ++ str "]").
Proof. split; vm_compute; reflexivity. Qed.

(** C7, amended. A lookup that misses does not raise and writes tombstones
    only: on every buffer the body returns the buffer with the tombstone
    written over the span of a self-closing tag whose name is unmapped, over
    the span of a template without nested template whose name is unmapped,
    and over both delimiter regions of a tag with contents whose class
    attribute is unmapped.  When every region the passes write is non-empty
    and inside the input, the buffer behind the output has one cell per input
    offset, the cells outside the written regions hold the input characters,
    and the cells of such a span (of such delimiter regions) are all
    tombstones, so that the span adds nothing to the output, unless a later
    write begins inside it.  A template that contains a template is not
    written: the output is the same without it in the report. *)
Theorem unmapped_lookup_is_delete (WIKI_BASE : pystr)
    (parse : pystr → WikiText) (s out : pystr) :
  (∀ lst : list (option pystr),
     (∀ tag, (tag_contents tag).1 = -1 → TAG_MAPPING !! tag_name tag = None →
        tag_body id lst tag
        = Ok (replace lst (tag_span tag).1 (tag_span tag).2 None))
     ∧ (∀ tpl, tpl_templates tpl = [] →
          TEMPLATE_MAPPING !! tpl_name tpl = None →
          template_body id lst tpl
          = Ok (replace lst (tpl_span tpl).1 (tpl_span tpl).2 None))
     ∧ (∀ tag cls, (tag_contents tag).1 ≠ -1 →
          tag_attrs tag !! str "class" = Some cls →
          TAG_MAPPING !! cls = None →
          tag_body id lst tag
          = Ok (replace
                  (replace lst (tag_span tag).1
                     ((tag_span tag).1 + (tag_contents tag).1) None)
                  ((tag_span tag).1 + (tag_contents tag).2)
                  (tag_span tag).2 None)))
  ∧ (Forall (region_ok (Z.of_nat (length s))) (regions (parse s)) →
     parse_wiki_str WIKI_BASE parse s = Ok out →
     ∃ buf : list (option cell),
       behind WIKI_BASE (parse s) s out buf
       ∧ (∀ (i : nat) (c : N),
            s !! i = Some c →
            ¬ Exists (fun r => inside r i) (regions (parse s)) →
            buf !! i = Some (Some (Orig i c)))
       ∧ (∀ pre tag post,
            get_tags (parse s) = pre ++ tag :: post →
            (tag_contents tag).1 = -1 →
            TAG_MAPPING !! tag_name tag = None →
            Forall (fun r => ¬ starts_inside (tag_span tag) r)
              (regions_after_tag (parse s) post) →
            tombstoned (tag_span tag) buf
            ∧ out = rendering (take (Z.to_nat (tag_span tag).1) buf)
                      ++ rendering (drop (Z.to_nat (tag_span tag).2) buf))
       ∧ (∀ pre tpl post,
            templates (parse s) = pre ++ tpl :: post →
            tpl_templates tpl = [] →
            TEMPLATE_MAPPING !! tpl_name tpl = None →
            Forall (fun r => ¬ starts_inside (tpl_span tpl) r)
              (regions_after_template post) →
            tombstoned (tpl_span tpl) buf
            ∧ out = rendering (take (Z.to_nat (tpl_span tpl).1) buf)
                      ++ rendering (drop (Z.to_nat (tpl_span tpl).2) buf))
       ∧ (∀ pre tag post cls,
            get_tags (parse s) = pre ++ tag :: post →
            (tag_contents tag).1 ≠ -1 →
            (tag_contents tag).1 ≤ (tag_contents tag).2 →
            tag_attrs tag !! str "class" = Some cls →
            TAG_MAPPING !! cls = None →
            Forall (fun r =>
                      ¬ starts_inside
                          ((tag_span tag).1,
                           (tag_span tag).1 + (tag_contents tag).1) r
                      ∧ ¬ starts_inside
                            ((tag_span tag).1 + (tag_contents tag).2,
                             (tag_span tag).2) r)
              (regions_after_tag (parse s) post) →
            tombstoned
              ((tag_span tag).1, (tag_span tag).1 + (tag_contents tag).1) buf
            ∧ tombstoned
                ((tag_span tag).1 + (tag_contents tag).2, (tag_span tag).2)
                buf)
       ∧ (∀ pre tpl post,
            templates (parse s) = pre ++ tpl :: post →
            tpl_templates tpl ≠ [] →
            parse_wiki_str WIKI_BASE
              (fun _ => with_templates (parse s) (pre ++ post)) s = Ok out)).
Proof.
  split.
  - intros lst. split; [|split].
    + intros tag Hc Hmiss. destruct (tag_span tag) as [L H] eqn:Hs.
      rewrite (tag_body_self_closing id lst tag L H Hs Hc). by rewrite Hmiss.
    + intros tpl Hn Hmiss. unfold template_body.
      destruct (tpl_span tpl) as [L H]. by rewrite Hn, Hmiss.
    + intros tag cls Hc Hcls Hmiss. destruct (tag_span tag) as [L H] eqn:Hs.
      destruct (tag_contents tag) as [ml mh] eqn:Hcon.
      rewrite (tag_body_boundary id lst tag L H ml mh cls Hs Hcon Hc Hcls).
      by rewrite Hmiss.
  - intros Hok Hrun.
    destruct (behind_aligned _ _ _ _ Hok Hrun) as (buf & Hb & Hframe).
    exists buf. split; [done|]. split; [done|].
    destruct Hb as (Hbuf & Hlen & Hout).
    rewrite <- (length_seed s) in Hok.
    split; [|split; [|split]].
    + intros pre tag post Hsplit Hc Hmiss Hlater.
      destruct (self_closing_tag_outcome WIKI_BASE Token (parse s) (seed s)
                  buf pre post tag Hok Hbuf Hsplit Hc) as [_ Htomb].
      specialize (Htomb Hmiss Hlater). split; [done|].
      destruct (passes_at_tag WIKI_BASE Token (parse s) (seed s) buf
                  pre post tag Hsplit Hok Hbuf)
        as (_ & _ & _ & _ & _ & Hreg & _).
      unfold tag_regions in Hreg.
      destruct (tag_span tag) as [L H].
      destruct (tag_contents tag) as [ml mh]. simpl in Hc. subst ml.
      rewrite bool_decide_eq_false_2 in Hreg by (intros Hne; by apply Hne).
      apply Forall_cons in Hreg as [(HL & HLH & HH) _].
      rewrite length_seed in HH. simpl in *. rewrite Hout.
      apply rendering_tombstoned; [lia|lia|lia|done].
    + intros pre tpl post Hsplit Hn Hmiss Hlater.
      destruct (template_outcome WIKI_BASE Token (parse s) (seed s) buf
                  pre post tpl Hok Hbuf Hsplit Hn) as [_ Htomb].
      specialize (Htomb Hmiss Hlater). split; [done|].
      destruct (passes_at_template WIKI_BASE Token (parse s) (seed s) buf
                  pre post tpl Hsplit Hok Hbuf)
        as (_ & _ & _ & _ & _ & Hreg & _).
      unfold template_regions in Hreg.
      destruct (tpl_span tpl) as [L H]. rewrite Hn in Hreg.
      apply Forall_cons in Hreg as [(HL & HLH & HH) _].
      rewrite length_seed in HH. simpl in *. rewrite Hout.
      apply rendering_tombstoned; [lia|lia|lia|done].
    + intros pre tag post cls Hsplit Hc Hle Hcls Hmiss Hlater.
      by apply (class_tag_outcome WIKI_BASE Token (parse s) (seed s) buf
                  pre post tag cls).
    + intros pre tpl post Hsplit Hn.
      by rewrite (parse_wiki_str_without_nested _ _ _ pre post tpl).
Qed.

Lemma unmapped_lookup_is_delete_witness :
  (∃ buf : list (option cell),
     behind [] report_hr_and_unmapped hr_and_unmapped (str "abc") buf
     ∧ tombstoned (1, 6) buf
     ∧ tombstoned (7, 19) buf
     ∧ str "abc" = rendering (take (Z.to_nat 7) buf)
                     ++ rendering (drop (Z.to_nat 19) buf))
  ∧ (∃ buf : list (option cell),
       behind [] report_b_zz (str "a<b class='zz'>x</b>c") (str "axc") buf
       ∧ tombstoned (1, 1 + 14) buf
       ∧ tombstoned (1 + 15, 20) buf).
Proof.
  split.
  - destruct (proj2 (unmapped_lookup_is_delete []
                       (fun _ => report_hr_and_unmapped)
                       hr_and_unmapped (str "abc")))
      as (buf & Hb & _ & Htag & Htpl & _).
    + repeat constructor; simpl; lia.
    + vm_compute. reflexivity.
    + exists buf. split; [exact Hb|].
      destruct (Htag [] tag_hr_1 []) as [Ht1 _];
        [reflexivity|reflexivity|reflexivity| |].
      { repeat constructor; unfold starts_inside; simpl; lia. }
      destruct (Htpl [] tpl_unmapped_7 []) as [Ht2 Hout2];
        [reflexivity|reflexivity|reflexivity|constructor|].
      split; [exact Ht1|]. split; [exact Ht2|exact Hout2].
  - destruct (proj2 (unmapped_lookup_is_delete [] (fun _ => report_b_zz)
                       (str "a<b class='zz'>x</b>c") (str "axc")))
      as (buf & Hb & _ & _ & _ & Hcls & _).
    + repeat constructor; simpl; lia.
    + vm_compute. reflexivity.
    + exists buf. split; [exact Hb|].
      apply (Hcls [] tag_b_zz_1 [] (str "zz")); try reflexivity.
      * simpl. lia.
      * simpl. lia.
      * constructor.
Defined.

(** C9, amended. When every region the passes write is non-empty and inside
    the input, a self-closing tag whose name is unmapped and a template
    without nested template whose name is unmapped collapse to the empty
    string: the output is what the buffer holds before the span followed by
    what it holds after it, unless a later write begins inside the span
    (["{{unmapped}}"] gives [""]).  A self-closing tag whose name is mapped
    shows as its mapped token instead (["<br/>"] becomes a newline), unless a
    later write meets its span.  A template that contains a template is not
    written: the output is the same without it in the report. *)
Theorem unmapped_span_collapses (WIKI_BASE : pystr)
    (parse : pystr → WikiText) (s out : pystr) :
  (Forall (region_ok (Z.of_nat (length s))) (regions (parse s)) →
   parse_wiki_str WIKI_BASE parse s = Ok out →
   ∃ buf : list (option cell),
     behind WIKI_BASE (parse s) s out buf
     ∧ (∀ (i : nat) (c : N),
          s !! i = Some c →
          ¬ Exists (fun r => inside r i) (regions (parse s)) →
          buf !! i = Some (Some (Orig i c)))
     ∧ (∀ pre tag post L H,
          get_tags (parse s) = pre ++ tag :: post → tag_span tag = (L, H) →
          (tag_contents tag).1 = -1 → TAG_MAPPING !! tag_name tag = None →
          Forall (fun r => ¬ starts_inside (L, H) r)
            (regions_after_tag (parse s) post) →
          out = rendering (take (Z.to_nat L) buf)
                  ++ rendering (drop (Z.to_nat H) buf))
     ∧ (∀ pre tpl post L H,
          templates (parse s) = pre ++ tpl :: post → tpl_span tpl = (L, H) →
          tpl_templates tpl = [] → TEMPLATE_MAPPING !! tpl_name tpl = None →
          Forall (fun r => ¬ starts_inside (L, H) r)
            (regions_after_template post) →
          out = rendering (take (Z.to_nat L) buf)
                  ++ rendering (drop (Z.to_nat H) buf))
     ∧ (∀ pre tag post L H t,
          get_tags (parse s) = pre ++ tag :: post → tag_span tag = (L, H) →
          (tag_contents tag).1 = -1 → TAG_MAPPING !! tag_name tag = Some t →
          Forall (fun r => ¬ meets (L, H) r)
            (regions_after_tag (parse s) post) →
          out = rendering (take (Z.to_nat L) buf) ++ t
                  ++ rendering (drop (Z.to_nat H) buf))
     ∧ (∀ pre tpl post,
          templates (parse s) = pre ++ tpl :: post →
          tpl_templates tpl ≠ [] →
          parse_wiki_str WIKI_BASE
            (fun _ => with_templates (parse s) (pre ++ post)) s = Ok out))
  ∧ parse_wiki_str WIKI_BASE (fun _ => report_unmapped) (str "{{unmapped}}")
    = Ok []
  ∧ parse_wiki_str WIKI_BASE (fun _ => report_a_br_b) (str "a<br/>b")
    = Ok (str "a" ++ [10%N] ++ str "b").
Proof.
  split; [|split; by vm_compute].
  intros Hok Hrun.
  destruct (behind_aligned _ _ _ _ Hok Hrun) as (buf & Hb & Hframe).
  exists buf. split; [done|]. split; [done|].
  destruct Hb as (Hbuf & Hlen & Hout).
  rewrite <- (length_seed s) in Hok.
  assert (∀ pre tag post L H,
            get_tags (parse s) = pre ++ tag :: post → tag_span tag = (L, H) →
            (tag_contents tag).1 = -1 →
            0 ≤ L ∧ L < H ∧ H ≤ Z.of_nat (length buf)) as Htagspan.
  { intros pre tag post L H Hsplit Hs Hc.
    destruct (passes_at_tag WIKI_BASE Token (parse s) (seed s) buf
                pre post tag Hsplit Hok Hbuf)
      as (_ & _ & _ & _ & _ & Hreg & _).
    unfold tag_regions in Hreg. rewrite Hs in Hreg.
    destruct (tag_contents tag) as [ml mh]. simpl in Hc. subst ml.
    rewrite bool_decide_eq_false_2 in Hreg by (intros Hne; by apply Hne).
    apply Forall_cons in Hreg as [Hreg _].
    rewrite length_seed, <- Hlen in Hreg. exact Hreg. }
  split; [|split; [|split]].
  - intros pre tag post L H Hsplit Hs Hc Hmiss Hlater.
    destruct (Htagspan pre tag post L H Hsplit Hs Hc) as (HL & HLH & HH).
    destruct (self_closing_tag_outcome WIKI_BASE Token (parse s) (seed s)
                buf pre post tag Hok Hbuf Hsplit Hc) as [_ Htomb].
    rewrite Hs in Htomb. rewrite Hout.
    apply rendering_tombstoned; [lia|lia|lia|]. by apply Htomb.
  - intros pre tpl post L H Hsplit Hs Hn Hmiss Hlater.
    destruct (template_outcome WIKI_BASE Token (parse s) (seed s) buf
                pre post tpl Hok Hbuf Hsplit Hn) as [_ Htomb].
    destruct (passes_at_template WIKI_BASE Token (parse s) (seed s) buf
                pre post tpl Hsplit Hok Hbuf)
      as (_ & _ & _ & _ & _ & Hreg & _).
    unfold template_regions in Hreg. rewrite Hs, Hn in Hreg.
    apply Forall_cons in Hreg as [(HL & HLH & HH) _].
    rewrite length_seed in HH. simpl in *.
    rewrite Hs in Htomb. rewrite Hout.
    apply rendering_tombstoned; [lia|lia|lia|]. by apply Htomb.
  - intros pre tag post L H t Hsplit Hs Hc Hhit Hlater.
    destruct (Htagspan pre tag post L H Hsplit Hs Hc) as (HL & HLH & HH).
    destruct (self_closing_tag_outcome WIKI_BASE Token (parse s) (seed s)
                buf pre post tag Hok Hbuf Hsplit Hc) as [Hhold _].
    rewrite Hs, Hhit in Hhold. rewrite Hout.
    apply rendering_holds_write; [lia|lia|lia|]. by apply Hhold.
  - intros pre tpl post Hsplit Hn.
    by rewrite (parse_wiki_str_without_nested _ _ _ pre post tpl).
Qed.

Lemma unmapped_span_collapses_witness :
  ∃ buf : list (option cell),
    behind [] report_hr_and_unmapped hr_and_unmapped (str "abc") buf
    ∧ str "abc" = rendering (take (Z.to_nat 1) buf)
                    ++ rendering (drop (Z.to_nat 6) buf)
    ∧ str "abc" = rendering (take (Z.to_nat 7) buf)
                    ++ rendering (drop (Z.to_nat 19) buf).
Proof.
  destruct (proj1 (unmapped_span_collapses [] (fun _ => report_hr_and_unmapped)
                     hr_and_unmapped (str "abc")))
    as (buf & Hb & _ & Htag & Htpl & _).
  - repeat constructor; simpl; lia.
  - vm_compute. reflexivity.
  - exists buf. split; [exact Hb|]. split.
    + apply (Htag [] tag_hr_1 [] 1 6); try reflexivity.
      repeat constructor; unfold starts_inside; simpl; lia.
    + apply (Htpl [] tpl_unmapped_7 [] 7 19); try reflexivity.
      constructor.
Defined.
